(** * Sales insights engine (lib/insights.js): a shallow embedding

    The engine is modelled as pure Rocq functions.

    - JavaScript numbers are [num]: exact rationals plus the three
      non-finite values.  Arithmetic on finite values is exact, so the
      rounding of IEEE doubles is not modelled.  The counterexamples
      below only use values whose double arithmetic is exact.
    - Strings are [string]: each [ascii] stands for a UTF-16 code unit
      below 256.
    - A JavaScript [Date] is its local day number, counted from
      0000-01-01 in the proleptic Gregorian calendar.  The time of day
      and time-zone offsets are not modelled.
    - A [Map] or [Set] is a list in insertion order.
    - Host primitives that depend on Unicode tables, the locale or the
      number printer are the fields of the class [Host]; every theorem
      holds for every host. *)

From Stdlib Require Import ZArith QArith Qround Qabs String Ascii List Bool Lia Lqa Permutation Sorted OrderedTypeEx.
Import ListNotations.

Local Open Scope Z_scope.

(* ------------------------------------------------------------------ *)
(** ** JavaScript numbers *)

Inductive num : Type :=
| Fin (q : Q)
| PInf
| NInf
| NaN.

Definition num_of_Z (z : Z) : num := Fin (inject_Z z).

(** [Number.isFinite] on a number *)
Definition is_finite (x : num) : bool :=
  match x with Fin _ => true | _ => false end.

Definition num_neg (x : num) : num :=
  match x with
  | Fin a => Fin (- a)
  | PInf => NInf
  | NInf => PInf
  | NaN => NaN
  end.

Definition num_add (x y : num) : num :=
  match x, y with
  | Fin a, Fin b => Fin (a + b)
  | NaN, _ | _, NaN => NaN
  | PInf, NInf | NInf, PInf => NaN
  | PInf, _ | _, PInf => PInf
  | NInf, _ | _, NInf => NInf
  end.

Definition num_sub (x y : num) : num := num_add x (num_neg y).

(** strict order on rationals *)
Definition Qltb (a b : Q) : bool := negb (Qle_bool b a).

(** sign of a finite value: 1, 0 or -1 *)
Definition qsign (a : Q) : Z :=
  if Qltb 0 a then 1 else if Qltb a 0 then -1 else 0.

Definition inf_of_sign (s : Z) : num :=
  if s =? 1 then PInf else if s =? -1 then NInf else NaN.

Definition num_mul (x y : num) : num :=
  match x, y with
  | Fin a, Fin b => Fin (a * b)
  | NaN, _ | _, NaN => NaN
  | Fin a, PInf | PInf, Fin a => inf_of_sign (qsign a)
  | Fin a, NInf | NInf, Fin a => inf_of_sign (- qsign a)
  | PInf, PInf | NInf, NInf => PInf
  | PInf, NInf | NInf, PInf => NInf
  end.

(** division; a zero divisor is +0 (the model has no signed zero) *)
Definition num_div (x y : num) : num :=
  match x, y with
  | Fin a, Fin b => if Qeq_bool b 0 then inf_of_sign (qsign a) else Fin (a / b)
  | NaN, _ | _, NaN => NaN
  | Fin _, _ => Fin 0
  | PInf, Fin b => if Qltb b 0 then NInf else PInf
  | NInf, Fin b => if Qltb b 0 then PInf else NInf
  | _, _ => NaN
  end.

(** [x < y] *)
Definition num_lt (x y : num) : bool :=
  match x, y with
  | Fin a, Fin b => Qltb a b
  | NInf, Fin _ | NInf, PInf | Fin _, PInf => true
  | _, _ => false
  end.

(** [x <= y] *)
Definition num_le (x y : num) : bool :=
  match x, y with
  | Fin a, Fin b => Qle_bool a b
  | NaN, _ | _, NaN => false
  | NInf, _ | _, PInf => true
  | _, _ => false
  end.

(** [x === y] *)
Definition num_eqb (x y : num) : bool :=
  match x, y with
  | Fin a, Fin b => Qeq_bool a b
  | PInf, PInf | NInf, NInf => true
  | _, _ => false
  end.

Definition num_abs (x : num) : num :=
  match x with
  | Fin a => Fin (Qabs a)
  | NInf => PInf
  | v => v
  end.

(** [Math.round]: the integer closest to x, halves rounded up *)
Definition Math_round (x : num) : num :=
  match x with
  | Fin a => Fin (inject_Z (Qfloor (a + (1 # 2))))
  | v => v
  end.

(** [x ** 2] *)
Definition num_sq (x : num) : num := num_mul x x.

(** falsy numbers: 0 and NaN *)
Definition num_falsy (x : num) : bool :=
  match x with Fin a => Qeq_bool a 0 | NaN => true | _ => false end.

(* ------------------------------------------------------------------ *)
(** ** JavaScript values held by row fields *)

Inductive jsval : Type :=
| JUndef
| JNull
| JBool (b : bool)
| JNum (n : num)
| JStr (s : string).

(** [x ?? y] *)
Definition nullish (v w : jsval) : jsval :=
  match v with JUndef | JNull => w | _ => v end.

(** [!v]: falsy values *)
Definition falsy (v : jsval) : bool :=
  match v with
  | JUndef | JNull => true
  | JBool b => negb b
  | JNum n => num_falsy n
  | JStr s => String.eqb s EmptyString
  end.

(* ------------------------------------------------------------------ *)
(** ** Strings *)

Definition char_code (c : ascii) : nat := nat_of_ascii c.

(** WhiteSpace and LineTerminator code units below 256, as removed by
    [String.prototype.trim] *)
Definition is_js_space (c : ascii) : bool :=
  let n := char_code c in
  (n =? 9)%nat || (n =? 10)%nat || (n =? 11)%nat || (n =? 12)%nat
  || (n =? 13)%nat || (n =? 32)%nat || (n =? 160)%nat.

Fixpoint drop_space (l : list ascii) : list ascii :=
  match l with
  | c :: t => if is_js_space c then drop_space t else l
  | [] => []
  end.

(** [s.trim()] *)
Definition trim (s : string) : string :=
  string_of_list_ascii
    (rev (drop_space (rev (drop_space (list_ascii_of_string s))))).

(** [\d] *)
Definition is_digit (c : ascii) : bool :=
  let n := char_code c in (48 <=? n)%nat && (n <=? 57)%nat.

Definition digit_val (c : ascii) : Z := Z.of_nat (char_code c) - 48.

(** [parseInt(s, 10)] on a string of decimal digits *)
Definition parse_digits (l : list ascii) : Z :=
  fold_left (fun acc c => acc * 10 + digit_val c) l 0.

Definition digit_char (d : Z) : ascii := ascii_of_nat (Z.to_nat (48 + d)).

Fixpoint digits_of_pos (fuel : nat) (n : Z) (acc : list ascii) : list ascii :=
  match fuel with
  | O => acc
  | S f =>
      let acc' := digit_char (n mod 10) :: acc in
      if n <? 10 then acc' else digits_of_pos f (n / 10) acc'
  end.

(** [String(n)] for an integer n *)
Definition Z_to_dec (n : Z) : string :=
  let body := string_of_list_ascii
                (digits_of_pos (S (Z.to_nat (Z.log2 (Z.abs n)))) (Z.abs n) []) in
  if n <? 0 then String "-" body else body.

(** [String(n).padStart(2, "0")] *)
Definition pad2 (n : Z) : string :=
  let s := Z_to_dec n in
  if (String.length s <? 2)%nat then String "0" s else s.

(* ------------------------------------------------------------------ *)
(** ** JavaScript [Date] on local day numbers

    Day 0 is 0000-01-01, a Saturday. *)

Definition leap (y : Z) : bool :=
  (y mod 4 =? 0) && (negb (y mod 100 =? 0) || (y mod 400 =? 0)).

(** DayFromYear: day number of January 1st of year y *)
Definition day_from_year (y : Z) : Z :=
  365 * y + (y + 3) / 4 - (y + 99) / 100 + (y + 399) / 400.

Definition days_in_month (y m : Z) : Z :=
  if m =? 2 then (if leap y then 29 else 28)
  else if (m =? 4) || (m =? 6) || (m =? 9) || (m =? 11) then 30
  else 31.

(** days of year y before the first of month m (1-12) *)
Definition days_before_month (y m : Z) : Z :=
  nth (Z.to_nat (m - 1)) [0; 31; 59; 90; 120; 151; 181; 212; 243; 273; 304; 334] 0
  + (if leap y && (2 <? m) then 1 else 0).

(** MakeDay(year, month, date), month counted from 0 *)
Definition make_day (y m0 d : Z) : Z :=
  let ym := y + m0 / 12 in
  let mn := m0 mod 12 in
  day_from_year ym + days_before_month ym (mn + 1) + d - 1.

Fixpoint year_walk (fuel : nat) (y n : Z) : Z :=
  match fuel with
  | O => y
  | S f => if day_from_year (y + 1) <=? n then year_walk f (y + 1) n else y
  end.

(** YearFromTime: the largest y with [day_from_year y <= n] *)
Definition year_from_day (n : Z) : Z :=
  let y0 := if n <? 0 then n / 365 - 1 else n / 366 in
  year_walk (Z.to_nat (Z.abs n + 2)) y0 n.

(** MonthFromTime + 1: the last month whose first day is on or before
    day k of year y *)
Definition month_of (y k : Z) : Z :=
  fold_left (fun acc m => if days_before_month y m <=? k then m else acc)
    [2; 3; 4; 5; 6; 7; 8; 9; 10; 11; 12] 1.

(** [d.getFullYear()] *)
Definition getFullYear (n : Z) : Z := year_from_day n.

(** [d.getMonth()] (0-11) *)
Definition getMonth (n : Z) : Z :=
  let y := year_from_day n in month_of y (n - day_from_year y) - 1.

(** [d.getDate()] (1-31) *)
Definition getDate (n : Z) : Z :=
  let y := year_from_day n in
  let k := n - day_from_year y in
  k - days_before_month y (month_of y k) + 1.

(** [d.getDay()] (0 = Sunday) *)
Definition getDay (n : Z) : Z := (n + 6) mod 7.

(** [new Date(year, month, day)]: years 0-99 denote 1900-1999 *)
Definition new_Date (y m0 d : Z) : Z :=
  let y' := if (0 <=? y) && (y <=? 99) then 1900 + y else y in
  make_day y' m0 d.

(* ------------------------------------------------------------------ *)
(** ** parseDate and getISOWeekKey *)

(** [getISOWeekKey(d)]: [setHours] leaves the day unchanged, and
    [setDate(x)] is [MakeDay(getFullYear, getMonth, x)]. *)
Definition getISOWeekKey (d : Z) : string :=
  let d2 := make_day (getFullYear d) (getMonth d) (getDate d - getDay d + 1) in
  (Z_to_dec (getFullYear d2) ++ "-" ++ pad2 (getMonth d2 + 1) ++ "-"
   ++ pad2 (getDate d2))%string.

Record ParsedDate : Type := {
  pd_year : Z;
  pd_month : Z;
  pd_day : Z;
  pd_date : Z;
  pd_dayOfWeek : Z;
  pd_weekKey : string
}.

(** [/^(\d{2})-(\d{2})-(\d{4})$/.exec(s)] *)
Definition match_ddmmyyyy (l : list ascii) : option (list ascii * list ascii * list ascii) :=
  match l with
  | [a1; a2; s1; b1; b2; s2; c1; c2; c3; c4] =>
      if forallb is_digit [a1; a2; b1; b2; c1; c2; c3; c4]
         && Ascii.eqb s1 "-" && Ascii.eqb s2 "-"
      then Some ([a1; a2], [b1; b2], [c1; c2; c3; c4]) else None
  | _ => None
  end.

(** [/^(\d{4})-(\d{2})-(\d{2})$/.exec(s)] *)
Definition match_yyyymmdd (l : list ascii) : option (list ascii * list ascii * list ascii) :=
  match l with
  | [a1; a2; a3; a4; s1; b1; b2; s2; c1; c2] =>
      if forallb is_digit [a1; a2; a3; a4; b1; b2; c1; c2]
         && Ascii.eqb s1 "-" && Ascii.eqb s2 "-"
      then Some ([a1; a2; a3; a4], [b1; b2], [c1; c2]) else None
  | _ => None
  end.

(** the part shared by both branches of [parseDate] *)
Definition parse_checked (year month day : Z) : option ParsedDate :=
  if (month <? 1) || (12 <? month) || (day <? 1) || (31 <? day) then None
  else
    let d := new_Date year (month - 1) day in
    if negb (getDate d =? day) || negb (getMonth d =? month - 1) then None
    else Some {| pd_year := year; pd_month := month; pd_day := day;
                 pd_date := d; pd_dayOfWeek := getDay d;
                 pd_weekKey := getISOWeekKey d |}.

Definition parseDate (v : jsval) : option ParsedDate :=
  match v with
  | JStr str =>
      if String.eqb str EmptyString then None
      else
        let s := list_ascii_of_string (trim str) in
        match match_ddmmyyyy s with
        | Some (g1, g2, g3) =>
            parse_checked (parse_digits g3) (parse_digits g2) (parse_digits g1)
        | None =>
            match match_yyyymmdd s with
            | Some (g1, g2, g3) =>
                parse_checked (parse_digits g1) (parse_digits g2) (parse_digits g3)
            | None => None
            end
        end
  | _ => None
  end.

(* ------------------------------------------------------------------ *)
(** ** Rows *)

Record Row : Type := {
  r_date : jsval;
  r_product : jsval;
  r_category : jsval;
  r_units : jsval;
  r_quantity : jsval;
  r_price : jsval;
  r_revenue : jsval
}.

(** [Number.isFinite(v)]: no coercion *)
Definition Number_isFinite (v : jsval) : bool :=
  match v with JNum n => is_finite n | _ => false end.

(** Host primitives: they depend on Unicode tables, the locale or the
    number printer. *)
Class Host : Type := {
  (** StringToNumber, used by [Number(s)] *)
  Number_of_string : string -> num;
  (** Number::toString, used by template literals *)
  String_of_num : num -> string;
  (** [Number(n).toLocaleString(undefined, {maximumFractionDigits: 0, ...})] *)
  formatCurrency : num -> string;
  (** [s.toUpperCase()] and [s.toLowerCase()] *)
  toUpperCase : string -> string;
  toLowerCase : string -> string;
  (** [a.localeCompare(b)] *)
  localeCompare : string -> string -> num;
  (** [Math.sqrt] *)
  Math_sqrt : num -> num
}.

Section Engine.
Context {host : Host}.

(** [Number(v)] *)
Definition ToNumber (v : jsval) : num :=
  match v with
  | JUndef => NaN
  | JNull => Fin 0
  | JBool b => if b then Fin 1 else Fin 0
  | JNum n => n
  | JStr s => Number_of_string s
  end.

(** [String(v)] and template-literal substitution *)
Definition ToString (v : jsval) : string :=
  match v with
  | JUndef => "undefined"
  | JNull => "null"
  | JBool b => if b then "true" else "false"
  | JNum n => String_of_num n
  | JStr s => s
  end.

(** [getQuantity(row)] *)
Definition getQuantity (row : Row) : num :=
  let q := nullish (r_units row) (r_quantity row) in
  let n := ToNumber q in
  if is_finite n then n else Fin 0.

(** [getRevenue(row)] *)
Definition getRevenue (row : Row) : num :=
  match r_revenue row with
  | JNum n => if is_finite n then n else
      let q := getQuantity row in
      let p := ToNumber (r_price row) in
      if is_finite p then num_mul q p else Fin 0
  | _ =>
      let q := getQuantity row in
      let p := ToNumber (r_price row) in
      if is_finite p then num_mul q p else Fin 0
  end.

(** [normCat(c)] *)
Definition normCat (c : jsval) : string :=
  let s := trim (ToString (nullish c (JStr ""))) in
  if String.eqb s "" then ""
  else (toUpperCase (substring 0 1 s) ++ toLowerCase (substring 1 (String.length s) s))%string.

(* ------------------------------------------------------------------ *)
(** ** computeGrowth *)

Record Growth : Type := {
  g_pct : num;
  g_direction : string;
  g_text : string
}.

Definition computeGrowth (current previous : num) : Growth :=
  if negb (is_finite previous) || num_eqb previous (Fin 0) then
    if num_lt (Fin 0) current
    then {| g_pct := Fin 100; g_direction := "up"; g_text := "up from no prior sales" |}
    else {| g_pct := Fin 0; g_direction := "flat"; g_text := "no change" |}
  else
    let pct := Math_round (num_mul (num_div (num_sub current previous) previous) (Fin 100)) in
    if num_lt (Fin 0) pct
    then {| g_pct := pct; g_direction := "up";
            g_text := ("up " ++ String_of_num pct ++ "%")%string |}
    else if num_lt pct (Fin 0)
    then {| g_pct := pct; g_direction := "down";
            g_text := ("down " ++ String_of_num (num_abs pct) ++ "%")%string |}
    else {| g_pct := Fin 0; g_direction := "flat"; g_text := "flat" |}.

(* ------------------------------------------------------------------ *)
(** ** detectAnomalies *)

Definition ANOMALY_CHANGE_THRESHOLD : num := Fin (1 # 2).
Definition ANOMALY_STD_THRESHOLD : num := Fin 2.

Record PeriodValue : Type := {
  pv_period : string;
  pv_value : num
}.

Record Anomaly : Type := {
  a_period : string;
  a_value : num;
  a_average : num;
  a_type : string;
  a_message : string
}.

Definition num_sum (l : list num) : num := fold_left num_add l (Fin 0).

Definition detectAnomalies (periodValues : list PeriodValue) : list Anomaly :=
  let values := filter (fun v => is_finite v && num_le (Fin 0) v)
                  (map pv_value periodValues) in
  if (length values <? 2)%nat then []
  else
    let len := num_of_Z (Z.of_nat (length values)) in
    let avg := num_div (num_sum values) len in
    let variance :=
      num_div (fold_left (fun acc v => num_add acc (num_sq (num_sub v avg))) values (Fin 0))
        len in
    let std := let s := Math_sqrt variance in if num_falsy s then Fin 0 else s in
    flat_map (fun e =>
      let period := pv_period e in
      let value := pv_value e in
      if negb (is_finite value) then []
      else
        let pctChange :=
          if negb (num_eqb avg (Fin 0)) then num_abs (num_div (num_sub value avg) avg)
          else Fin 0 in
        let z := if num_lt (Fin 0) std then num_div (num_sub value avg) std else Fin 0 in
        let isSpike := num_lt avg value
          && (num_le ANOMALY_CHANGE_THRESHOLD pctChange || num_le ANOMALY_STD_THRESHOLD z) in
        let isDrop := num_lt value avg
          && (num_le ANOMALY_CHANGE_THRESHOLD pctChange
              || num_le z (num_neg ANOMALY_STD_THRESHOLD)) in
        (if isSpike
         then [{| a_period := period; a_value := value; a_average := avg; a_type := "spike";
                  a_message := ("Unusual spike in " ++ period)%string |}]
         else [])
        ++ (if isDrop
            then [{| a_period := period; a_value := value; a_average := avg; a_type := "drop";
                     a_message := ("Unusual drop in " ++ period)%string |}]
            else []))
      periodValues.

(* ------------------------------------------------------------------ *)
(** ** Ordered maps, sets and [Array.prototype.sort] *)

Definition amap (K V : Type) : Type := list (K * V).

Fixpoint amap_get {K V} (eqk : K -> K -> bool) (k : K) (m : amap K V) : option V :=
  match m with
  | [] => None
  | (k', v) :: t => if eqk k k' then Some v else amap_get eqk k t
  end.

(** [m.set(k, v)]: a new key goes last, an old key keeps its place *)
Fixpoint amap_set {K V} (eqk : K -> K -> bool) (k : K) (v : V) (m : amap K V) : amap K V :=
  match m with
  | [] => [(k, v)]
  | (k', v') :: t => if eqk k k' then (k', v) :: t else (k', v') :: amap_set eqk k v t
  end.

(** [s.add(k)] on a [Set] of strings *)
Definition set_add (k : string) (s : list string) : list string :=
  if existsb (String.eqb k) s then s else s ++ [k].

(** [arr.sort(cmp)]: a stable sort; x goes after y unless [cmp(y, x) > 0] *)
Fixpoint insert_by {A} (cmp : A -> A -> num) (x : A) (l : list A) : list A :=
  match l with
  | [] => [x]
  | y :: t => if num_lt (Fin 0) (cmp y x) then x :: y :: t else y :: insert_by cmp x t
  end.

Definition js_sort {A} (cmp : A -> A -> num) (l : list A) : list A :=
  fold_left (fun acc x => insert_by cmp x acc) l [].

(** the default comparison of [arr.sort()]: code-unit order *)
Definition default_compare (a b : string) : num :=
  match String.compare a b with Lt => Fin (-1) | Eq => Fin 0 | Gt => Fin 1 end.

Definition sort_strings (l : list string) : list string := js_sort default_compare l.

(** [v || 0] on a number read from a map *)
Definition or_zero (v : option num) : num :=
  match v with Some n => if num_falsy n then Fin 0 else n | None => Fin 0 end.

Fixpoint join (sep : string) (l : list string) : string :=
  match l with
  | [] => ""
  | [x] => x
  | x :: t => (x ++ sep ++ join sep t)%string
  end.

(** [s.split("-")] *)
Fixpoint split_dash_aux (l : list ascii) (cur : list ascii) : list string :=
  match l with
  | [] => [string_of_list_ascii (rev cur)]
  | c :: t => if Ascii.eqb c "-" then string_of_list_ascii (rev cur) :: split_dash_aux t []
              else split_dash_aux t (c :: cur)
  end.

Definition split_dash (s : string) : list string := split_dash_aux (list_ascii_of_string s) [].

(** [parseInt(s, 10)] on the leading digits of s; [None] is NaN *)
Definition parseInt10 (s : string) : option Z :=
  let ds := (fix lead l := match l with
             | c :: t => if is_digit c then c :: lead t else []
             | [] => [] end) (list_ascii_of_string s) in
  match ds with [] => None | _ => Some (parse_digits ds) end.

Definition dq : string := String (ascii_of_nat 34) EmptyString.

(* ------------------------------------------------------------------ *)
(** ** Aggregation *)

Record Agg : Type := { ag_revenue : num; ag_quantity : num }.

Definition agg0 : Agg := {| ag_revenue := Fin 0; ag_quantity := Fin 0 |}.

Definition agg_add (cur : Agg) (rev qty : num) : Agg :=
  {| ag_revenue := num_add (ag_revenue cur) rev; ag_quantity := num_add (ag_quantity cur) qty |}.

(** the month key [`${year}-${pad(month)}`] *)
Definition month_key (p : ParsedDate) : string :=
  (Z_to_dec (pd_year p) ++ "-" ++ pad2 (pd_month p))%string.

Definition aggregateByMonth (rows : list Row) : amap string Agg :=
  fold_left (fun byMonth row =>
    match parseDate (r_date row) with
    | None => byMonth
    | Some parsed =>
        let key := month_key parsed in
        let cur := match amap_get String.eqb key byMonth with Some c => c | None => agg0 end in
        amap_set String.eqb key (agg_add cur (getRevenue row) (getQuantity row)) byMonth
    end) rows [].

Definition aggregateByWeek (rows : list Row) : amap string Agg :=
  fold_left (fun byWeek row =>
    match parseDate (r_date row) with
    | None => byWeek
    | Some parsed =>
        let key := pd_weekKey parsed in
        let cur := match amap_get String.eqb key byWeek with Some c => c | None => agg0 end in
        amap_set String.eqb key (agg_add cur (getRevenue row) (getQuantity row)) byWeek
    end) rows [].

Record ProductAgg : Type := {
  pa_product : string; pa_revenue : num; pa_quantity : num; pa_category : string }.

(** [String(row.product ?? "").trim() || "Unknown"] *)
Definition product_name (row : Row) : string :=
  let s := trim (ToString (nullish (r_product row) (JStr ""))) in
  if String.eqb s "" then "Unknown" else s.

Definition groupByProduct (rows : list Row) : list ProductAgg :=
  map snd (fold_left (fun byProduct row =>
    let name := product_name row in
    let rev := getRevenue row in
    let qty := getQuantity row in
    let cat := normCat (r_category row) in
    let cur := match amap_get String.eqb name byProduct with
               | Some c => c
               | None => {| pa_product := name; pa_revenue := Fin 0; pa_quantity := Fin 0;
                            pa_category := cat |} end in
    amap_set String.eqb name
      {| pa_product := pa_product cur; pa_revenue := num_add (pa_revenue cur) rev;
         pa_quantity := num_add (pa_quantity cur) qty; pa_category := pa_category cur |}
      byProduct) rows []).

Record CategoryAgg : Type := { ca_category : string; ca_revenue : num; ca_quantity : num }.

Definition groupByCategory (rows : list Row) : list CategoryAgg :=
  map snd (fold_left (fun byCat row =>
    let cat := let c := normCat (r_category row) in
               if String.eqb c "" then "Uncategorized"%string else c in
    let rev := getRevenue row in
    let qty := getQuantity row in
    let cur := match amap_get String.eqb cat byCat with
               | Some c => c
               | None => {| ca_category := cat; ca_revenue := Fin 0; ca_quantity := Fin 0 |} end in
    amap_set String.eqb cat
      {| ca_category := ca_category cur; ca_revenue := num_add (ca_revenue cur) rev;
         ca_quantity := num_add (ca_quantity cur) qty |} byCat) rows []).

(* ------------------------------------------------------------------ *)
(** ** generateInsights *)

Definition MONTH_NAMES : list string :=
  ["January"; "February"; "March"; "April"; "May"; "June";
   "July"; "August"; "September"; "October"; "November"; "December"]%string.

Definition DAY_NAMES : list string :=
  ["Sunday"; "Monday"; "Tuesday"; "Wednesday"; "Thursday"; "Friday"; "Saturday"]%string.

(** [NAMES[i]] in a template literal *)
Definition name_at (names : list string) (i : option Z) : string :=
  match i with
  | Some k => if k <? 0 then "undefined"
              else match nth_error names (Z.to_nat k) with Some s => s | None => "undefined" end
  | None => "undefined"
  end.

Definition MIN_ROWS_FOR_INSIGHTS : nat := 3.
Definition CONCENTRATION_WARN_PCT : num := Fin 60.

Record Acc : Type := { findings : list string; actions : list string; warnings : list string }.

Definition acc0 : Acc := {| findings := []; actions := []; warnings := [] |}.

Definition push_finding (x : string) (a : Acc) : Acc :=
  {| findings := findings a ++ [x]; actions := actions a; warnings := warnings a |}.
Definition push_action (x : string) (a : Acc) : Acc :=
  {| findings := findings a; actions := actions a ++ [x]; warnings := warnings a |}.
Definition push_warning (x : string) (a : Acc) : Acc :=
  {| findings := findings a; actions := actions a; warnings := warnings a ++ [x] |}.

Definition total_revenue (rows : list Row) : num :=
  fold_left (fun sum r => num_add sum (getRevenue r)) rows (Fin 0).
Definition total_quantity (rows : list Row) : num :=
  fold_left (fun sum r => num_add sum (getQuantity r)) rows (Fin 0).

(** *** Data quality checks *)

Record DQ : Type := {
  missingDates : Z; invalidQty : Z; invalidPrice : Z;
  seenKeys : list string; duplicateCount : Z }.

Definition dq_scan (st : DQ) (r : Row) : DQ :=
  let md := if falsy (r_date r) || match parseDate (r_date r) with Some _ => false | None => true end
            then missingDates st + 1 else missingDates st in
  let q := getQuantity r in
  let supplied := match r_units r, r_quantity r with JUndef, JUndef => false | _, _ => true end in
  let iq := if num_le q (Fin 0) && supplied then invalidQty st + 1 else invalidQty st in
  let p := ToNumber (r_price r) in
  let ip := if is_finite p && num_lt p (Fin 0) then invalidPrice st + 1 else invalidPrice st in
  let key := (ToString (r_date r) ++ "-" ++ ToString (r_product r) ++ "-"
              ++ ToString (r_category r) ++ "-" ++ String_of_num q ++ "-"
              ++ String_of_num p)%string in
  let dc := if existsb (String.eqb key) (seenKeys st) then duplicateCount st + 1
            else duplicateCount st in
  {| missingDates := md; invalidQty := iq; invalidPrice := ip;
     seenKeys := set_add key (seenKeys st); duplicateCount := dc |}.

Definition data_quality_step (rows : list Row) (acc : Acc) : Acc :=
  let st := fold_left dq_scan rows
              {| missingDates := 0; invalidQty := 0; invalidPrice := 0;
                 seenKeys := []; duplicateCount := 0 |} in
  let acc := if 0 <? missingDates st then push_warning (Z_to_dec (missingDates st)
               ++ " row(s) have missing or invalid dates. Check your data.") acc else acc in
  let acc := if 0 <? invalidQty st then push_warning (Z_to_dec (invalidQty st)
               ++ " row(s) have zero or invalid quantity.") acc else acc in
  let acc := if 0 <? invalidPrice st then push_warning (Z_to_dec (invalidPrice st)
               ++ " row(s) have negative price.") acc else acc in
  if 0 <? duplicateCount st then push_warning (Z_to_dec (duplicateCount st)
    ++ " possible duplicate row(s). Review for data entry errors.") acc else acc.

(** *** Trend *)

Definition last2 (keys : list string) : string * string :=
  (nth (length keys - 1) keys ""%string, nth (length keys - 2) keys ""%string).

Definition agg_revenue (m : amap string Agg) (k : string) : num :=
  match amap_get String.eqb k m with Some a => ag_revenue a | None => Fin 0 end.

Definition weekly_trend (byWeek : amap string Agg) (weekKeys : list string)
  : option string * option string :=
  let '(lastKey, prevKey) := last2 weekKeys in
  let lastRev := agg_revenue byWeek lastKey in
  let prevRev := agg_revenue byWeek prevKey in
  let growth := computeGrowth lastRev prevRev in
  (Some ("Revenue is " ++ g_text growth ++ " this week vs last week ($"
         ++ formatCurrency lastRev ++ " vs $" ++ formatCurrency prevRev ++ ").")%string,
   if String.eqb (g_direction growth) "up"
   then Some "Keep up the momentum; consider restocking best sellers."%string
   else if String.eqb (g_direction growth) "down"
   then Some "Check if stock ran out or demand dipped; promote top products."%string
   else None).

Definition month_label (key : string) : string :=
  name_at MONTH_NAMES (option_map (fun m => m - 1) (parseInt10 (nth 1 (split_dash key) ""%string))).

Definition monthly_trend (byMonth : amap string Agg) (monthKeys : list string)
  : option string * option string :=
  let '(lastKey, prevKey) := last2 monthKeys in
  let lastRev := agg_revenue byMonth lastKey in
  let prevRev := agg_revenue byMonth prevKey in
  let growth := computeGrowth lastRev prevRev in
  (Some ("Revenue is " ++ g_text growth ++ " in " ++ month_label lastKey ++ " vs "
         ++ month_label prevKey ++ " ($" ++ formatCurrency lastRev ++ " vs $"
         ++ formatCurrency prevRev ++ ").")%string,
   if String.eqb (g_direction growth) "up"
   then Some "Keep stock levels healthy for your best sellers."%string
   else if String.eqb (g_direction growth) "down"
   then Some "Focus on promoting your top 3 products or run a small promotion."%string
   else None).

Definition trend (rows : list Row) (byMonth : amap string Agg) (monthKeys : list string)
  (useWeekly : bool) : option string * option string :=
  if useWeekly && (length monthKeys =? 0)%nat then
    let byWeek := aggregateByWeek rows in
    let weekKeys := sort_strings (map fst byWeek) in
    if (2 <=? length weekKeys)%nat then weekly_trend byWeek weekKeys else (None, None)
  else if (2 <=? length monthKeys)%nat then monthly_trend byMonth monthKeys
  else (None, None).

Definition push_opt (push : string -> Acc -> Acc) (x : option string) (acc : Acc) : Acc :=
  match x with Some s => if String.eqb s "" then acc else push s acc | None => acc end.

Definition trend_step (rows : list Row) (byMonth : amap string Agg) (monthKeys : list string)
  (useWeekly : bool) (acc : Acc) : Acc :=
  let '(trendFinding, trendAction) := trend rows byMonth monthKeys useWeekly in
  push_opt push_action trendAction (push_opt push_finding trendFinding acc).

(** *** Top products by revenue and by quantity *)

Definition by_revenue (byProduct : list ProductAgg) : list ProductAgg :=
  js_sort (fun a b => num_sub (pa_revenue b) (pa_revenue a)) byProduct.
Definition by_qty (byProduct : list ProductAgg) : list ProductAgg :=
  js_sort (fun a b => num_sub (pa_quantity b) (pa_quantity a)) byProduct.

Definition top_products_step (totalRevenue : num) (byProduct : list ProductAgg) (acc : Acc) : Acc :=
  let top3Revenue := firstn 3 (by_revenue byProduct) in
  let top3Qty := firstn 3 (by_qty byProduct) in
  let acc := match top3Revenue with
             | [] => acc
             | first :: _ =>
                 push_action ("Restock and promote: " ++ pa_product first ++ ".")
                   (push_finding ("Top 3 products by revenue: "
                                  ++ join ", " (map pa_product top3Revenue) ++ ".") acc)
             end in
  match top3Qty with
  | [] => acc
  | _ :: _ =>
      if num_lt (Fin 0) totalRevenue
      then push_finding ("Top 3 products by units sold: "
                         ++ join ", " (map pa_product top3Qty) ++ ".") acc
      else acc
  end.

(** *** High volume, low revenue: the first matching product *)

Definition mismatch_step (totalRevenue totalQuantity : num) (byProduct : list ProductAgg)
  (acc : Acc) : Acc :=
  let revShare p := if num_lt (Fin 0) totalRevenue
                    then num_mul (num_div (pa_revenue p) totalRevenue) (Fin 100) else Fin 0 in
  let qtyShare p := if num_lt (Fin 0) totalQuantity
                    then num_mul (num_div (pa_quantity p) totalQuantity) (Fin 100) else Fin 0 in
  match find (fun p => num_le (Fin 15) (qtyShare p) && num_lt (revShare p) (Fin 5)
                       && num_lt (Fin 0) (pa_revenue p)) byProduct with
  | Some p =>
      push_action ("Review price or bundles for " ++ pa_product p
                   ++ ", you might be able to earn more per unit.")
        (push_finding (pa_product p ++ " sells a lot (" ++ String_of_num (Math_round (qtyShare p))
                       ++ "% of units) but brings in only "
                       ++ String_of_num (Math_round (revShare p)) ++ "% of revenue.") acc)
  | None => acc
  end.

(** *** Category performance: top category *)

Definition category_top_step (byCategory : list CategoryAgg) (acc : Acc) : Acc :=
  match js_sort (fun a b => num_sub (ca_revenue b) (ca_revenue a)) byCategory with
  | [] => acc
  | topCat :: _ =>
      push_action ("Focus on category " ++ dq ++ ca_category topCat ++ dq
                   ++ ", it drives the most revenue.")
        (push_finding (ca_category topCat ++ " is your top category ($"
                       ++ formatCurrency (ca_revenue topCat) ++ " revenue).") acc)
  end.

(** *** Category growth: last month against the month before *)

Definition catMonthMap (rows : list Row) : amap string num :=
  fold_left (fun m r =>
    match parseDate (r_date r) with
    | None => m
    | Some parsed =>
        let key := (normCat (r_category r) ++ "__" ++ month_key parsed)%string in
        amap_set String.eqb key (num_add (or_zero (amap_get String.eqb key m)) (getRevenue r)) m
    end) rows [].

Record CatScan : Type := {
  fastestCat : option string; fastestGrowth : num;
  decliningCat : option string; decliningGrowth : num }.

Definition cat_scan (cm : amap string num) (lastKey prevKey : string) (st : CatScan)
  (cat : string) : CatScan :=
  let last := or_zero (amap_get String.eqb (cat ++ "__" ++ lastKey)%string cm) in
  let prev := or_zero (amap_get String.eqb (cat ++ "__" ++ prevKey)%string cm) in
  if num_lt (Fin 0) prev then
    let g := num_mul (num_div (num_sub last prev) prev) (Fin 100) in
    let st := if num_lt (fastestGrowth st) g && num_lt prev last
              then {| fastestCat := Some cat; fastestGrowth := g;
                      decliningCat := decliningCat st; decliningGrowth := decliningGrowth st |}
              else st in
    if num_lt g (decliningGrowth st) && num_lt last prev
    then {| fastestCat := fastestCat st; fastestGrowth := fastestGrowth st;
            decliningCat := Some cat; decliningGrowth := g |}
    else st
  else st.

Definition category_growth_step (rows : list Row) (monthKeys : list string)
  (byCategory : list CategoryAgg) (acc : Acc) : Acc :=
  let cm := catMonthMap rows in
  if (2 <=? length monthKeys)%nat then
    let '(lastKey, prevKey) := last2 monthKeys in
    let cats := fold_left (fun s c => set_add (ca_category c) s) byCategory [] in
    let st := fold_left (cat_scan cm lastKey prevKey) cats
                {| fastestCat := None; fastestGrowth := NInf;
                   decliningCat := None; decliningGrowth := PInf |} in
    let acc := match fastestCat st with
               | Some c => if String.eqb c "" then acc else
                   push_action ("Promote " ++ c ++ " — it is growing.")
                     (push_finding (c ++ " is your fastest-growing category (up "
                        ++ String_of_num (Math_round (fastestGrowth st)) ++ "% vs last period).") acc)
               | None => acc
               end in
    match decliningCat st with
    | Some c => if negb (String.eqb c "") && num_lt (decliningGrowth st) (Fin (-10)) then
        push_action ("Check why " ++ c ++ " is declining — restock or run a promo.")
          (push_finding (c ++ " revenue is down "
             ++ String_of_num (Math_round (num_abs (decliningGrowth st))) ++ "% vs last period.") acc)
        else acc
    | None => acc
    end
  else acc.

(** *** Concentration risk *)

Definition concentration_step (totalRevenue : num) (byProduct : list ProductAgg) (acc : Acc) : Acc :=
  let byRevenue := by_revenue byProduct in
  let top3Revenue := firstn 3 byRevenue in
  if num_lt (Fin 0) totalRevenue && (0 <? length byRevenue)%nat then
    let top1Rev := match top3Revenue with p :: _ => pa_revenue p | [] => Fin 0 end in
    let top3Rev := fold_left (fun s p => num_add s (pa_revenue p)) (firstn 3 top3Revenue) (Fin 0) in
    let pct1 := Math_round (num_mul (num_div top1Rev totalRevenue) (Fin 100)) in
    let pct3 := Math_round (num_mul (num_div top3Rev totalRevenue) (Fin 100)) in
    let acc := push_finding (String_of_num pct1 ++ "% of revenue comes from your top product; "
                 ++ String_of_num pct3 ++ "% from the top 3.") acc in
    if num_le CONCENTRATION_WARN_PCT pct3 then
      push_action "Try to grow sales of other products so one slow month does not hurt too much."
        (push_warning ("Over " ++ String_of_num pct3
           ++ "% of revenue depends on 3 products. Consider diversifying to reduce risk.") acc)
    else acc
  else acc.

(** *** Stock hints: steady demand *)

Definition period_key (useWeekly : bool) (parsed : ParsedDate) : string :=
  if useWeekly then pd_weekKey parsed else month_key parsed.

Definition productPeriods (rows : list Row) (useWeekly : bool) : amap string (list string) :=
  fold_left (fun m r =>
    match parseDate (r_date r) with
    | None => m
    | Some parsed =>
        let name := product_name r in
        let set := match amap_get String.eqb name m with Some st => st | None => [] end in
        amap_set String.eqb name (set_add (period_key useWeekly parsed) set) m
    end) rows [].

Definition periodCount (rows : list Row) (monthKeys : list string) (useWeekly : bool) : nat :=
  if useWeekly then
    length (fold_left (fun st k => set_add k st)
              (filter (fun k => negb (String.eqb k ""))
                 (flat_map (fun r => match parseDate (r_date r) with
                                     | Some p => [pd_weekKey p] | None => [] end) rows)) [])
  else length monthKeys.

Definition steady_step (rows : list Row) (monthKeys : list string) (useWeekly : bool)
  (acc : Acc) : Acc :=
  let pc := periodCount rows monthKeys useWeekly in
  if (2 <=? pc)%nat then
    let consistent := map fst (filter (fun e => (Nat.min 3 pc <=? length (snd e))%nat)
                                 (productPeriods rows useWeekly)) in
    match consistent with
    | name :: _ =>
        push_action ("Keep " ++ name ++ " in stock; reorder before you run out.")
          (push_finding (name ++ " sells in many periods — steady demand.") acc)
    | [] => acc
    end
  else acc.

(** *** Stock hints: recent spike, first product only *)

Definition byProdPeriod (rows : list Row) (useWeekly : bool) : amap string num :=
  fold_left (fun m r =>
    match parseDate (r_date r) with
    | None => m
    | Some parsed =>
        let key := (product_name r ++ "__" ++ period_key useWeekly parsed)%string in
        amap_set String.eqb key (num_add (or_zero (amap_get String.eqb key m)) (getRevenue r)) m
    end) rows [].

Definition spike_step (rows : list Row) (monthKeys : list string) (useWeekly : bool)
  (byProduct : list ProductAgg) (acc : Acc) : Acc :=
  if (2 <=? length monthKeys)%nat
     || (useWeekly && (2 <=? length (map fst (aggregateByWeek rows)))%nat) then
    let bpp := byProdPeriod rows useWeekly in
    let pp := productPeriods rows useWeekly in
    let weekKeys := sort_strings (map fst (aggregateByWeek rows)) in
    let lastPeriod := if (2 <=? length monthKeys)%nat then fst (last2 monthKeys)
                      else match weekKeys with [] => ""%string | _ => fst (last2 weekKeys) end in
    if String.eqb lastPeriod "" then acc
    else
      let hit p :=
        let lastRev := or_zero (amap_get String.eqb (pa_product p ++ "__" ++ lastPeriod)%string bpp) in
        let periods := if useWeekly
                       then match amap_get String.eqb (pa_product p) pp with
                            | Some st => length st | None => 0%nat end
                       else length monthKeys in
        let avgRev := if (0 <? periods)%nat
                      then num_div (pa_revenue p) (num_of_Z (Z.of_nat periods)) else Fin 0 in
        num_lt (Fin 0) avgRev && num_le (num_mul avgRev (Fin (3 # 2))) lastRev in
      match find hit byProduct with
      | Some p =>
          push_action ("Restock " ++ pa_product p ++ " to avoid running out.")
            (push_finding (pa_product p ++ " had a recent spike in sales — might need extra stock.") acc)
      | None => acc
      end
  else acc.

(** *** Seasonality *)

Definition seasonality_step (rows : list Row) (acc : Acc) : Acc :=
  let '(byDay, byMonthOnly) :=
    fold_left (fun '(bd, bm) r =>
      match parseDate (r_date r) with
      | None => (bd, bm)
      | Some parsed =>
          let rev := getRevenue r in
          (amap_set Z.eqb (pd_dayOfWeek parsed)
             (num_add (or_zero (amap_get Z.eqb (pd_dayOfWeek parsed) bd)) rev) bd,
           amap_set Z.eqb (pd_month parsed)
             (num_add (or_zero (amap_get Z.eqb (pd_month parsed) bm)) rev) bm)
      end) rows ([], []) in
  let by_value (l : amap Z num) := js_sort (fun a b => num_sub (snd b) (snd a)) l in
  let acc := if (3 <=? length byDay)%nat then
               match by_value byDay with
               | (d, _) :: _ =>
                   let dayName := name_at DAY_NAMES (Some d) in
                   push_action ("Schedule promotions or extra stock for " ++ dayName ++ "s.")
                     (push_finding ("Your best day for sales is " ++ dayName ++ ".") acc)
               | [] => acc
               end
             else acc in
  if (3 <=? length byMonthOnly)%nat then
    match by_value byMonthOnly with
    | (m, _) :: _ =>
        push_finding ("Your best month for sales is " ++ name_at MONTH_NAMES (Some (m - 1)) ++ ".") acc
    | [] => acc
    end
  else acc.

(** *** Anomalies over the trend periods *)

Definition periodValues (rows : list Row) (byMonth : amap string Agg) (monthKeys : list string)
  : list PeriodValue :=
  if (2 <=? length monthKeys)%nat
  then map (fun k => {| pv_period := month_label k; pv_value := agg_revenue byMonth k |}) monthKeys
  else map (fun e => {| pv_period := ("Week " ++ fst e)%string; pv_value := ag_revenue (snd e) |})
         (js_sort (fun a b => localeCompare (fst a) (fst b)) (aggregateByWeek rows)).

Definition anomalies_step (rows : list Row) (byMonth : amap string Agg) (monthKeys : list string)
  (acc : Acc) : Acc :=
  fold_left (fun acc a =>
    let acc := if String.eqb (a_type a) "spike"
               then push_finding ("Unusual revenue spike in " ++ a_period a ++ " ($"
                      ++ formatCurrency (a_value a) ++ " vs avg $" ++ formatCurrency (a_average a)
                      ++ "). Check for bulk orders or data errors.") acc
               else acc in
    if String.eqb (a_type a) "drop"
    then push_warning ("Revenue dropped in " ++ a_period a ++ ". Confirm if real or a data issue.") acc
    else acc)
    (detectAnomalies (periodValues rows byMonth monthKeys)) acc.

(** *** The pipeline *)

Definition collect (rows : list Row) : Acc :=
  let totalRevenue := total_revenue rows in
  let totalQuantity := total_quantity rows in
  let acc := data_quality_step rows acc0 in
  let byMonth := aggregateByMonth rows in
  let monthKeys := sort_strings (map fst byMonth) in
  let useWeekly := (length monthKeys <? 2)%nat in
  let acc := trend_step rows byMonth monthKeys useWeekly acc in
  let byProduct := groupByProduct rows in
  let acc := top_products_step totalRevenue byProduct acc in
  let acc := mismatch_step totalRevenue totalQuantity byProduct acc in
  let byCategory := groupByCategory rows in
  let acc := category_top_step byCategory acc in
  let acc := category_growth_step rows monthKeys byCategory acc in
  let acc := concentration_step totalRevenue byProduct acc in
  let acc := steady_step rows monthKeys useWeekly acc in
  let acc := spike_step rows monthKeys useWeekly byProduct acc in
  let acc := seasonality_step rows acc in
  anomalies_step rows byMonth monthKeys acc.

(** [[...new Set(arr)]] *)
Definition uniq (arr : list string) : list string := fold_left (fun s x => set_add x s) arr [].

Definition finalize (acc : Acc) : Acc :=
  {| findings := firstn 6 (uniq (findings acc));
     actions := firstn 5 (uniq (actions acc));
     warnings := uniq (warnings acc) |}.

(** the argument of [generateInsights]: an array or any other value *)
Inductive Input : Type :=
| InArray (rows : list Row)
| InOther.

Definition generateInsights (input : Input) : Acc :=
  match input with
  | InArray rows => if (length rows <? MIN_ROWS_FOR_INSIGHTS)%nat then acc0 else finalize (collect rows)
  | InOther => acc0
  end.

End Engine.

(* ------------------------------------------------------------------ *)
(** ** The caller: components/SalesInsightsCard.jsx

    The card is modelled by what it renders below its header, as a
    function of its state: the [rows] prop ([None] for [null]), the
    [loading] flag and the [insights] result. *)

Section Card.
Context {host : Host}.

Definition MIN_ROWS : nat := 3.

(** a list block: a [BulletList] or [WarningList], a placeholder
    paragraph, or nothing *)
Inductive Block : Type :=
| Bullets (items : list string)
| Placeholder (text : string)
| NoBlock.

Inductive CardBody : Type :=
| Skeletons
| AddMoreSales
| InsightLists (keyFindings nextSteps warningsBlock : Block)
| NoBody.

(** [BulletList] and [WarningList] render nothing for an empty list *)
Definition BulletList (items : list string) : Block :=
  match items with [] => NoBlock | _ => Bullets items end.

Definition card_body (rows : option (list Row)) (loading : bool) (insights : option Acc)
  : CardBody :=
  let insufficient :=
    negb loading && match rows with None => true | Some l => (length l <? MIN_ROWS)%nat end in
  if loading then Skeletons
  else if insufficient then AddMoreSales
  else match insights with
       | Some i =>
           InsightLists
             (if (0 <? length (findings i))%nat then BulletList (findings i)
              else Placeholder "No findings yet. Add more data across different dates and products.")
             (if (0 <? length (actions i))%nat then BulletList (actions i)
              else Placeholder "No specific actions yet. Keep selling and check back.")
             (if (0 <? length (warnings i))%nat then BulletList (warnings i) else NoBlock)
       | None => NoBody
       end.

(** the argument passed to [generateInsights(rows, {})] *)
Definition card_input (rows : option (list Row)) : Input :=
  match rows with Some l => InArray l | None => InOther end.

(** the card once its effect has run: [setInsights(result)] and
    [setLoading(false)] *)
Definition card_after_effect (rows : option (list Row)) : CardBody :=
  card_body rows false (Some (generateInsights (card_input rows))).

End Card.

(* ------------------------------------------------------------------ *)
(** ** A concrete host, used to run the engine on examples *)

Definition print_int (n : num) : string :=
  match n with
  | Fin q => Z_to_dec (Qfloor q)
  | PInf => "Infinity"
  | NInf => "-Infinity"
  | NaN => "NaN"
  end.

Definition example_host : Host := {|
  Number_of_string := fun _ => NaN;
  String_of_num := print_int;
  formatCurrency := print_int;
  toUpperCase := fun s => s;
  toLowerCase := fun s => s;
  localeCompare := default_compare;
  Math_sqrt := fun x => x
|}.

Definition row0 : Row := {| r_date := JUndef; r_product := JUndef; r_category := JUndef;
  r_units := JUndef; r_quantity := JUndef; r_price := JUndef; r_revenue := JUndef |}.

(** a row [{ date, product, category: "X", units, price }] *)
Definition mk_row (d p : string) (units price : Z) : Row :=
  {| r_date := JStr d; r_product := JStr p; r_category := JStr "X";
     r_units := JNum (num_of_Z units); r_quantity := JUndef;
     r_price := JNum (num_of_Z price); r_revenue := JUndef |}.

(** one month, three Monday-start weeks *)
Definition rows_one_month : list Row :=
  [mk_row "01-01-2025" "A" 10 10; mk_row "08-01-2025" "B" 10 10; mk_row "15-01-2025" "A" 50 10].

(** the spec's rounding: to the nearest integer, halves away from zero *)
Definition round_half_away (x : Q) : Z :=
  if Qle_bool 0 x then Qfloor (x + (1 # 2)) else - Qfloor (- x + (1 # 2)).

(** Deduplication as the spec words it: an element is kept when it does
    not occur earlier in the list. *)
Fixpoint keep_first (earlier l : list string) : list string :=
  match l with
  | [] => []
  | x :: t => (if existsb (String.eqb x) earlier then [] else [x]) ++ keep_first (earlier ++ [x]) t
  end.

Definition dedup_spec (l : list string) : list string := keep_first [] l.

(** [b] is [a] with entries appended to each list *)
Definition extends (a b : Acc) : Prop :=
  exists f x w, findings b = findings a ++ f /\ actions b = actions a ++ x /\
                warnings b = warnings a ++ w.

(** rows whose dates do not parse *)
Definition rows_no_dates : list Row :=
  [mk_row "" "A" 1 10; mk_row "2025/01/01" "B" 1 10; mk_row "31-02-2025" "C" 1 10].

(** The anomaly detector as the spec describes it: population mean and
    variance over the finite non-negative values, each entry with a
    finite value tested against them in input order. *)
Section AnomalySpec.
Context {host : Host}.
Local Open Scope Q_scope.

Definition finite_nonneg_values (pvs : list PeriodValue) : list Q :=
  flat_map (fun e => match pv_value e with
                     | Fin q => if Qle_bool 0 q then [q] else []
                     | _ => [] end) pvs.

Definition pop_mean (l : list Q) : Q :=
  fold_left Qplus l 0 / inject_Z (Z.of_nat (length l)).

Definition pop_variance (l : list Q) : Q :=
  let m := pop_mean l in
  fold_left (fun acc v => acc + (v - m) * (v - m)) l 0 / inject_Z (Z.of_nat (length l)).

(** [std]: the square root of the variance, 0 when that root is 0 or NaN *)
Definition pop_std (l : list Q) : num :=
  let s := Math_sqrt (Fin (pop_variance l)) in if num_falsy s then Fin 0 else s.

(** [pctChange]: 0 when the mean is 0 *)
Definition pct_change (m v : Q) : Q :=
  if Qeq_bool m 0 then 0 else Qabs ((v - m) / m).

(** [z]: 0 unless the deviation is positive *)
Definition z_score (m v : Q) (std : num) : num :=
  if num_lt (Fin 0) std then num_div (Fin (v - m)) std else Fin 0.

Definition is_spike (m : Q) (std : num) (v : Q) : bool :=
  Qltb m v && (Qle_bool (1 # 2) (pct_change m v) || num_le (Fin 2) (z_score m v std)).

Definition is_drop (m : Q) (std : num) (v : Q) : bool :=
  Qltb v m && (Qle_bool (1 # 2) (pct_change m v) || num_le (z_score m v std) (Fin (-2))).

Definition anomalies_spec (pvs : list PeriodValue) : list Anomaly :=
  let vals := finite_nonneg_values pvs in
  if (length vals <? 2)%nat then []
  else
    let m := pop_mean vals in
    let std := pop_std vals in
    flat_map (fun e =>
      match pv_value e with
      | Fin v =>
          (if is_spike m std v
           then [{| a_period := pv_period e; a_value := Fin v; a_average := Fin m;
                    a_type := "spike"; a_message := ("Unusual spike in " ++ pv_period e)%string |}]
           else [])
          ++ (if is_drop m std v
              then [{| a_period := pv_period e; a_value := Fin v; a_average := Fin m;
                       a_type := "drop"; a_message := ("Unusual drop in " ++ pv_period e)%string |}]
              else [])
      | _ => []
      end) pvs.

End AnomalySpec.

(** two zero periods and one negative period *)
Definition pvs_zero_mean : list PeriodValue :=
  [{| pv_period := "a"; pv_value := Fin 0 |}; {| pv_period := "b"; pv_value := Fin 0 |};
   {| pv_period := "c"; pv_value := Fin (-1) |}].

(** The calendar as the spec reads it, and what [new Date] does with
    the year. *)

(** the year [new Date(y, ...)] uses *)
Definition js_year (y : Z) : Z := if (0 <=? y) && (y <=? 99) then 1900 + y else y.

Definition valid_calendar_date (y m d : Z) : Prop :=
  1 <= m <= 12 /\ 1 <= d <= days_in_month y m.

(** what a parse of the components (y, m, d) should give *)
Definition date_result (r : option ParsedDate) (y m d : Z) : Prop :=
  match r with
  | Some p => valid_calendar_date (js_year y) m d /\ pd_year p = y /\ pd_month p = m /\ pd_day p = d
  | None => ~ valid_calendar_date (js_year y) m d
  end.

(** what a parse of the components (y, m, d) gives by the calendar
    itself, years 0-99 included *)
Definition calendar_result (r : option ParsedDate) (y m d : Z) : Prop :=
  match r with
  | Some p => valid_calendar_date y m d /\ pd_year p = y /\ pd_month p = m /\ pd_day p = d
  | None => ~ valid_calendar_date y m d
  end.

Definition zrange (lo hi : Z) : list Z :=
  map (fun i => lo + Z.of_nat i) (seq 0 (Z.to_nat (hi - lo + 1))).

(** day d of month m lies on day k of the year, within the year; it is
    read back as (m, d) when d is a day of m, and in another month when
    it is not *)
Definition month_cell (y m d : Z) : bool :=
  let k := days_before_month y m + d - 1 in
  (0 <=? k) && (k <? 365 + (if leap y then 1 else 0)) &&
  (if d <=? days_in_month y m
   then (month_of y k =? m) && (k - days_before_month y (month_of y k) + 1 =? d)
   else negb (month_of y k =? m)).

(** every cell, for a leap year and a common year *)
Definition month_table_ok : bool :=
  forallb (fun y => forallb (fun m => forallb (fun d => month_cell y m d)
                                         (zrange 1 31)) (zrange 1 12)) [2000; 2001].

Definition century_leap_ok : bool :=
  forallb (fun y => Bool.eqb (leap (1900 + y)) (leap y)) (zrange 1 99).

(** Group-by loops over rows, in the shape shared by [aggregateByMonth],
    [aggregateByWeek], [groupByProduct] and [groupByCategory]: a row with
    a key updates the entry of that key. *)

(** the value of a finite number, 0 for the others *)
Definition qv (x : num) : Q := match x with Fin q => q | _ => 0%Q end.

Section GroupFold.
Context {V : Type}.

Definition group_fold (key : Row -> option string) (upd : option V -> Row -> V)
  (rows : list Row) (m0 : amap string V) : amap string V :=
  fold_left (fun m r =>
    match key r with
    | None => m
    | Some k => amap_set String.eqb k (upd (amap_get String.eqb k m) r) m
    end) rows m0.

Definition sumA (g : V -> Q) (m : amap string V) : Q :=
  fold_right (fun e s => (g (snd e) + s)%Q) 0%Q m.

End GroupFold.

Section GroupSteps.
Context {host : Host}.

Definition product_step (o : option ProductAgg) (row : Row) : ProductAgg :=
  let cur := match o with
             | Some c => c
             | None => {| pa_product := product_name row; pa_revenue := Fin 0; pa_quantity := Fin 0;
                          pa_category := normCat (r_category row) |} end in
  {| pa_product := pa_product cur; pa_revenue := num_add (pa_revenue cur) (getRevenue row);
     pa_quantity := num_add (pa_quantity cur) (getQuantity row); pa_category := pa_category cur |}.

(** [normCat(row.category) || "Uncategorized"] *)
Definition category_name (row : Row) : string :=
  let c := normCat (r_category row) in if String.eqb c "" then "Uncategorized"%string else c.

Definition category_step (o : option CategoryAgg) (row : Row) : CategoryAgg :=
  let cur := match o with
             | Some c => c
             | None => {| ca_category := category_name row; ca_revenue := Fin 0; ca_quantity := Fin 0 |}
             end in
  {| ca_category := ca_category cur; ca_revenue := num_add (ca_revenue cur) (getRevenue row);
     ca_quantity := num_add (ca_quantity cur) (getQuantity row) |}.

Definition agg_step (o : option Agg) (row : Row) : Agg :=
  agg_add (match o with Some c => c | None => agg0 end) (getRevenue row) (getQuantity row).

Definition month_of_row (row : Row) : option string :=
  match parseDate (r_date row) with Some p => Some (month_key p) | None => None end.

Definition week_of_row (row : Row) : option string :=
  match parseDate (r_date row) with Some p => Some (pd_weekKey p) | None => None end.

(** rows whose date parses *)
Definition dated (row : Row) : bool :=
  match parseDate (r_date row) with Some _ => true | None => false end.

End GroupSteps.

(* ================================================================== *)
(** * Properties *)

Section Claims.
Context {host : Host}.

(** C10: [getQuantity] falls back to [quantity] only when [units] is
    null or undefined: then it reads [quantity]. For any other [units]
    value, falsy ones included (0, false, "", NaN), it reads [units] and
    never [quantity]. So a row with [units: 0] (or [false], or [NaN])
    has quantity 0 whatever its [quantity] field, and a row with
    [units: null] or no [units] reads [quantity]. *)
Theorem getQuantity_nullish_fallback :
  (forall row, r_units row = JNum (Fin 0) -> getQuantity row = Fin 0) /\
  (forall row n, r_units row = JNull -> r_quantity row = JNum n -> is_finite n = true ->
     getQuantity row = n) /\
  getQuantity {| r_date := JUndef; r_product := JUndef; r_category := JUndef;
                 r_units := JNum (Fin 0); r_quantity := JNum (num_of_Z 5);
                 r_price := JUndef; r_revenue := JUndef |} = Fin 0 /\
  getQuantity {| r_date := JUndef; r_product := JUndef; r_category := JUndef;
                 r_units := JNull; r_quantity := JNum (num_of_Z 5);
                 r_price := JUndef; r_revenue := JUndef |} = num_of_Z 5 /\
  (forall row, r_units row = JUndef \/ r_units row = JNull ->
     getQuantity row =
       (let n := ToNumber (r_quantity row) in if is_finite n then n else Fin 0)) /\
  (forall row, r_units row <> JUndef -> r_units row <> JNull ->
     getQuantity row =
       (let n := ToNumber (r_units row) in if is_finite n then n else Fin 0)) /\
  (forall row, falsy (r_units row) = true -> r_units row <> JUndef -> r_units row <> JNull ->
     forall q, getQuantity row =
       getQuantity {| r_date := r_date row; r_product := r_product row;
                      r_category := r_category row; r_units := r_units row;
                      r_quantity := q; r_price := r_price row;
                      r_revenue := r_revenue row |}) /\
  (forall row, r_units row = JBool false -> getQuantity row = Fin 0) /\
  (forall row, r_units row = JNum NaN -> getQuantity row = Fin 0) /\
  (forall row, r_units row = JStr "" ->
     getQuantity row =
       (let n := Number_of_string "" in if is_finite n then n else Fin 0)) /\
  getQuantity {| r_date := JUndef; r_product := JUndef; r_category := JUndef;
                 r_units := JUndef; r_quantity := JNum (num_of_Z 5);
                 r_price := JUndef; r_revenue := JUndef |} = num_of_Z 5 /\
  getQuantity {| r_date := JUndef; r_product := JUndef; r_category := JUndef;
                 r_units := JBool false; r_quantity := JNum (num_of_Z 5);
                 r_price := JUndef; r_revenue := JUndef |} = Fin 0.
Proof.
  split; [|split; [|split; [|split; [|split; [|split; [|split; [|split; [|split; [|split; [|split]]]]]]]]]].
  - intros row H. unfold getQuantity. rewrite H. reflexivity.
  - intros row n Hu Hq Hf. unfold getQuantity. rewrite Hu, Hq. simpl. now rewrite Hf.
  - reflexivity.
  - reflexivity.
  - intros row [H|H]; unfold getQuantity, nullish; rewrite H; reflexivity.
  - intros row H1 H2. unfold getQuantity, nullish.
    destruct (r_units row); try congruence; reflexivity.
  - intros row _ H1 H2 q. unfold getQuantity, nullish. cbn [r_units].
    destruct (r_units row); try congruence; reflexivity.
  - intros row H. unfold getQuantity. rewrite H. reflexivity.
  - intros row H. unfold getQuantity. rewrite H. reflexivity.
  - intros row H. unfold getQuantity. rewrite H. reflexivity.
  - reflexivity.
  - reflexivity.
Qed.

(** C8: [getQuantity] reads [units], falls back to [quantity] when
    [units] is null or undefined, coerces with [Number] and gives 0 for a
    non-finite result; [getRevenue] returns a finite numeric [revenue]
    unchanged, otherwise [getQuantity(row) * Number(price)], and 0 when
    [Number(price)] is not finite. *)
Theorem quantity_revenue_accessors :
  (forall row, r_units row <> JUndef -> r_units row <> JNull ->
     getQuantity row = let n := ToNumber (r_units row) in if is_finite n then n else Fin 0) /\
  (forall row, (r_units row = JUndef \/ r_units row = JNull) ->
     getQuantity row = let n := ToNumber (r_quantity row) in if is_finite n then n else Fin 0) /\
  (forall row n, r_revenue row = JNum n -> is_finite n = true -> getRevenue row = n) /\
  (forall row, Number_isFinite (r_revenue row) = false ->
     is_finite (ToNumber (r_price row)) = true ->
     getRevenue row = num_mul (getQuantity row) (ToNumber (r_price row))) /\
  (forall row, Number_isFinite (r_revenue row) = false ->
     is_finite (ToNumber (r_price row)) = false -> getRevenue row = Fin 0).
Proof.
  split; [|split; [|split; [|split]]].
  - intros row H1 H2. unfold getQuantity, nullish.
    destruct (r_units row); congruence.
  - intros row [H|H]; unfold getQuantity, nullish; rewrite H; reflexivity.
  - intros row n H Hf. unfold getRevenue. rewrite H, Hf. reflexivity.
  - intros row Hr Hp. unfold getRevenue.
    destruct (r_revenue row); simpl in Hr; try (rewrite Hp; reflexivity).
    rewrite Hr, Hp. reflexivity.
  - intros row Hr Hp. unfold getRevenue.
    destruct (r_revenue row); simpl in Hr; try (rewrite Hp; reflexivity).
    rewrite Hr, Hp. reflexivity.
Qed.

(** a two-way rounding bound for [Math.round] on a rational *)
Lemma Qfloor_half_bounds (x : Q) :
  (inject_Z (Qfloor (x + (1 # 2))) - (1 # 2) <= x)%Q /\
  (x < inject_Z (Qfloor (x + (1 # 2))) + (1 # 2))%Q.
Proof.
  pose proof (Qfloor_le (x + (1 # 2))) as H1.
  pose proof (Qlt_floor (x + (1 # 2))) as H2.
  rewrite inject_Z_plus in H2.
  generalize dependent (inject_Z (Qfloor (x + (1 # 2)))). intros k H1 H2.
  change (inject_Z 1) with 1%Q in H2. split; lra.
Qed.

Lemma Qltb_inject_Z (a b : Z) : Qltb (inject_Z a) (inject_Z b) = (a <? b).
Proof.
  unfold Qltb, Qle_bool. simpl. rewrite !Z.mul_1_r.
  rewrite Z.leb_antisym. apply Bool.negb_involutive.
Qed.

Lemma Qeq_bool_false (b : Q) : ~ (b == 0)%Q -> Qeq_bool b 0 = false.
Proof.
  intros H. destruct (Qeq_bool b 0) eqn:E; [|reflexivity].
  apply Qeq_bool_iff in E. contradiction.
Qed.

Lemma round_growth_eq (a b : Q) :
  Qeq_bool b 0 = false ->
  Math_round (num_mul (num_div (num_sub (Fin a) (Fin b)) (Fin b)) (Fin 100))
  = Fin (inject_Z (Qfloor ((a - b) / b * 100 + (1 # 2)))).
Proof.
  intros H. unfold num_sub, num_neg, num_add, num_div. rewrite H. reflexivity.
Qed.

(** C3 (amended): for a finite current value and a finite non-zero
    previous value, [pct] is [((current - previous) / previous) * 100]
    rounded to the nearest integer with halves rounded up (Math.round),
    with direction and text following its sign; for a non-finite or zero
    previous value the result is [up]/100 when current > 0 and [flat]/0
    otherwise. *)
Theorem computeGrowth_rounds_half_up :
  (forall a b : Q, ~ (b == 0)%Q ->
   exists k : Z,
     (inject_Z k - (1 # 2) <= (a - b) / b * 100)%Q /\
     ((a - b) / b * 100 < inject_Z k + (1 # 2))%Q /\
     computeGrowth (Fin a) (Fin b) =
       if 0 <? k then {| g_pct := num_of_Z k; g_direction := "up";
                         g_text := ("up " ++ String_of_num (num_of_Z k) ++ "%")%string |}
       else if k <? 0 then {| g_pct := num_of_Z k; g_direction := "down";
                              g_text := ("down " ++ String_of_num (num_of_Z (- k)) ++ "%")%string |}
       else {| g_pct := Fin 0; g_direction := "flat"; g_text := "flat" |}) /\
  (forall current previous : num,
     (is_finite previous = false \/ exists q, previous = Fin q /\ (q == 0)%Q) ->
     computeGrowth current previous =
       if num_lt (Fin 0) current
       then {| g_pct := Fin 100; g_direction := "up"; g_text := "up from no prior sales" |}
       else {| g_pct := Fin 0; g_direction := "flat"; g_text := "no change" |}).
Proof.
  split.
  - intros a b Hb.
    exists (Qfloor ((a - b) / b * 100 + (1 # 2))).
    destruct (Qfloor_half_bounds ((a - b) / b * 100)) as [H1 H2].
    split; [exact H1|split; [exact H2|]].
    unfold computeGrowth.
    change (is_finite (Fin b)) with true. change (num_eqb (Fin b) (Fin 0)) with (Qeq_bool b 0).
    rewrite (Qeq_bool_false b Hb). cbn [negb orb].
    rewrite (round_growth_eq a b (Qeq_bool_false b Hb)).
    set (k := Qfloor ((a - b) / b * 100 + (1 # 2))).
    cbn [num_lt].
    change (Qltb 0 (inject_Z k)) with (Qltb (inject_Z 0) (inject_Z k)).
    change (Qltb (inject_Z k) 0) with (Qltb (inject_Z k) (inject_Z 0)).
    rewrite !Qltb_inject_Z.
    destruct (0 <? k) eqn:E1; [reflexivity|].
    destruct (k <? 0) eqn:E2; [|reflexivity].
    unfold num_abs, num_of_Z. simpl.
    rewrite Z.abs_neq by (apply Z.ltb_lt in E2; lia). reflexivity.
  - intros c p [H|[q [-> Hq]]].
    + unfold computeGrowth. rewrite H. reflexivity.
    + unfold computeGrowth. simpl.
      assert (E : Qeq_bool q 0 = true) by (apply Qeq_bool_iff; exact Hq).
      rewrite E. reflexivity.
Qed.

(** *** Maps and sorting *)

Lemma amap_set_not_nil {K V} (eqk : K -> K -> bool) k (v : V) m : amap_set eqk k v m <> [].
Proof. destruct m as [|[k' v'] t]; simpl; [discriminate|]. destruct (eqk k k'); discriminate. Qed.

Lemma insert_by_length {A} (cmp : A -> A -> num) x l : length (insert_by cmp x l) = S (length l).
Proof.
  induction l as [|y t IH]; [reflexivity|].
  cbn [insert_by]. destruct (num_lt (Fin 0) (cmp y x)); cbn [length]; [reflexivity|].
  now rewrite IH.
Qed.

Lemma js_sort_length {A} (cmp : A -> A -> num) l : length (js_sort cmp l) = length l.
Proof.
  unfold js_sort. rewrite <- (Nat.add_0_r (length l)).
  change 0%nat with (length (@nil A)). generalize (@nil A).
  induction l as [|x t IH]; intros acc; simpl; [reflexivity|].
  rewrite IH, insert_by_length. simpl. lia.
Qed.

(** a fold that sets one key per row with a parsable date is empty
    exactly when it starts empty and no date parses *)
Lemma fold_parsed_nil {V} (f : amap string V -> Row -> ParsedDate -> amap string V)
  (Hf : forall m r p, f m r p <> []) :
  forall rows m0,
  fold_left (fun m row => match parseDate (r_date row) with
                          | None => m | Some p => f m row p end) rows m0 = [] <->
  m0 = [] /\ Forall (fun r => parseDate (r_date r) = None) rows.
Proof.
  induction rows as [|r t IH]; intros m0; simpl.
  - split; [intros H; split; auto|intros [H _]; exact H].
  - rewrite IH. destruct (parseDate (r_date r)) eqn:E.
    + split; [intros [H _]; exfalso; exact (Hf _ _ _ H)|].
      intros [_ H]. inversion H; congruence.
    + split.
      * intros [H1 H2]. split; [exact H1|constructor; assumption].
      * intros [H1 H2]. inversion H2. auto.
Qed.

Lemma aggregateByMonth_nil rows :
  aggregateByMonth rows = [] <-> Forall (fun r => parseDate (r_date r) = None) rows.
Proof.
  unfold aggregateByMonth. rewrite fold_parsed_nil.
  - split; [intros [_ H]; exact H|intros H; split; auto].
  - intros. apply amap_set_not_nil.
Qed.

Lemma aggregateByWeek_nil rows :
  aggregateByWeek rows = [] <-> Forall (fun r => parseDate (r_date r) = None) rows.
Proof.
  unfold aggregateByWeek. rewrite fold_parsed_nil.
  - split; [intros [_ H]; exact H|intros H; split; auto].
  - intros. apply amap_set_not_nil.
Qed.

(** C5: the weekly trend branch of [generateInsights] is unreachable.
    It needs zero month keys, which means that no date parses, which in
    turn leaves no week key; so the trend step always gives what its
    monthly branch alone gives, and never the "this week vs last week"
    finding. *)
Theorem weekly_trend_unreachable (rows : list Row) :
  let byMonth := aggregateByMonth rows in
  let monthKeys := sort_strings (map fst byMonth) in
  (length monthKeys = 0%nat -> aggregateByWeek rows = []) /\
  trend rows byMonth monthKeys (length monthKeys <? 2)%nat
  = (if (2 <=? length monthKeys)%nat then monthly_trend byMonth monthKeys else (None, None)).
Proof.
  cbv zeta.
  assert (Hw : length (sort_strings (map fst (aggregateByMonth rows))) = 0%nat ->
               aggregateByWeek rows = []).
  { unfold sort_strings. rewrite js_sort_length, length_map. intros H.
    apply length_zero_iff_nil in H. apply aggregateByWeek_nil, aggregateByMonth_nil, H. }
  split; [exact Hw|].
  unfold trend.
  destruct (Nat.eqb_spec (length (sort_strings (map fst (aggregateByMonth rows)))) 0) as [E|E].
  - rewrite (Hw E), E. reflexivity.
  - rewrite Bool.andb_false_r. reflexivity.
Qed.

(** *** Every step only appends *)

Lemma extends_refl a : extends a a.
Proof. exists [], [], []. rewrite !app_nil_r. auto. Qed.

Lemma extends_trans a b c : extends a b -> extends b c -> extends a c.
Proof.
  intros (f1 & x1 & w1 & F1 & X1 & W1) (f2 & x2 & w2 & F2 & X2 & W2).
  exists (f1 ++ f2), (x1 ++ x2), (w1 ++ w2).
  rewrite F2, X2, W2, F1, X1, W1, !app_assoc. auto.
Qed.

Lemma extends_push_finding a b x : extends a b -> extends a (push_finding x b).
Proof.
  intros H. eapply extends_trans; [exact H|].
  exists [x], [], []. simpl. rewrite !app_nil_r. auto.
Qed.

Lemma extends_push_action a b x : extends a b -> extends a (push_action x b).
Proof.
  intros H. eapply extends_trans; [exact H|].
  exists [], [x], []. simpl. rewrite !app_nil_r. auto.
Qed.

Lemma extends_push_warning a b x : extends a b -> extends a (push_warning x b).
Proof.
  intros H. eapply extends_trans; [exact H|].
  exists [], [], [x]. simpl. rewrite !app_nil_r. auto.
Qed.

Lemma extends_fold {A} (f : Acc -> A -> Acc) (Hf : forall acc x, extends acc (f acc x)) :
  forall l acc, extends acc (fold_left f l acc).
Proof.
  induction l as [|x t IH]; intros acc; simpl; [apply extends_refl|].
  eapply extends_trans; [apply Hf|apply IH].
Qed.

Lemma extends_findings_not_nil a b : extends a b -> findings a <> [] -> findings b <> [].
Proof.
  intros (f & x & w & F & _ & _) H. rewrite F. destruct (findings a); [contradiction|discriminate].
Qed.

Ltac extends_solve :=
  repeat match goal with
  | |- extends ?a ?a => apply extends_refl
  | |- extends _ (push_finding _ _) => apply extends_push_finding
  | |- extends _ (push_action _ _) => apply extends_push_action
  | |- extends _ (push_warning _ _) => apply extends_push_warning
  | |- extends _ (match ?x with _ => _ end) => destruct x
  end.

Lemma data_quality_step_extends rows acc : extends acc (data_quality_step rows acc).
Proof. unfold data_quality_step. cbv zeta. extends_solve. Qed.

Lemma trend_step_extends rows bm mk uw acc : extends acc (trend_step rows bm mk uw acc).
Proof.
  unfold trend_step. destruct (trend rows bm mk uw) as [f a].
  unfold push_opt. extends_solve.
Qed.

Lemma top_products_step_extends t bp acc : extends acc (top_products_step t bp acc).
Proof. unfold top_products_step. cbv zeta. extends_solve. Qed.

Lemma mismatch_step_extends t q bp acc : extends acc (mismatch_step t q bp acc).
Proof. unfold mismatch_step. cbv zeta. extends_solve. Qed.

Lemma category_top_step_extends bc acc : extends acc (category_top_step bc acc).
Proof. unfold category_top_step. extends_solve. Qed.

Lemma category_growth_step_extends rows mk bc acc :
  extends acc (category_growth_step rows mk bc acc).
Proof. unfold category_growth_step. cbv zeta. extends_solve. Qed.

Lemma concentration_step_extends t bp acc : extends acc (concentration_step t bp acc).
Proof. unfold concentration_step. cbv zeta. extends_solve. Qed.

Lemma steady_step_extends rows mk uw acc : extends acc (steady_step rows mk uw acc).
Proof. unfold steady_step. cbv zeta. extends_solve. Qed.

Lemma spike_step_extends rows mk uw bp acc : extends acc (spike_step rows mk uw bp acc).
Proof. unfold spike_step. cbv zeta. extends_solve. Qed.

Lemma seasonality_step_extends rows acc : extends acc (seasonality_step rows acc).
Proof. unfold seasonality_step. cbv zeta. extends_solve. Qed.

Lemma anomalies_step_extends rows bm mk acc : extends acc (anomalies_step rows bm mk acc).
Proof.
  unfold anomalies_step. apply extends_fold. intros acc' a. cbv zeta. extends_solve.
Qed.

(** *** Deduplication *)

Lemma existsb_eqb_In x l : existsb (String.eqb x) l = true <-> In x l.
Proof.
  rewrite existsb_exists. split.
  - intros [y [Hy E]]. apply String.eqb_eq in E. subst. exact Hy.
  - intros H. exists x. split; [exact H|apply String.eqb_refl].
Qed.

Lemma existsb_eqb_same x l1 l2 :
  (forall y, In y l1 <-> In y l2) -> existsb (String.eqb x) l1 = existsb (String.eqb x) l2.
Proof.
  intros H. destruct (existsb (String.eqb x) l2) eqn:E2.
  - apply existsb_eqb_In. apply H. apply existsb_eqb_In. exact E2.
  - destruct (existsb (String.eqb x) l1) eqn:E1; [|reflexivity].
    apply existsb_eqb_In, H, existsb_eqb_In in E1. congruence.
Qed.

(** the [Set] of the code checks the output built so far, the spec checks
    the input seen so far; both hold the same elements *)
Lemma uniq_fold_keep_first :
  forall l s pre, (forall y, In y s <-> In y pre) ->
  fold_left (fun s x => set_add x s) l s = s ++ keep_first pre l.
Proof.
  induction l as [|x t IH]; intros s pre H; simpl.
  - rewrite app_nil_r. reflexivity.
  - unfold set_add at 2. rewrite (existsb_eqb_same x s pre H).
    destruct (existsb (String.eqb x) pre) eqn:E.
    + cbn [app]. apply (IH s (pre ++ [x])). intros y. rewrite H, in_app_iff. simpl.
      apply existsb_eqb_In in E. split; [tauto|]. intros [Hy|[<-|[]]]; auto.
    + rewrite (IH (s ++ [x]) (pre ++ [x])), <- app_assoc; [reflexivity|].
      intros y. rewrite !in_app_iff, H. tauto.
Qed.

Lemma uniq_dedup_spec l : uniq l = dedup_spec l.
Proof.
  unfold uniq, dedup_spec. rewrite (uniq_fold_keep_first l [] []); [reflexivity|tauto].
Qed.

Lemma set_add_NoDup x s : NoDup s -> NoDup (set_add x s).
Proof.
  intros H. unfold set_add. destruct (existsb (String.eqb x) s) eqn:E; [exact H|].
  apply Permutation_NoDup with (x :: s); [apply Permutation_cons_append|].
  constructor; [|exact H]. intros Hin. apply existsb_eqb_In in Hin. congruence.
Qed.

Lemma uniq_NoDup l : NoDup (uniq l).
Proof.
  unfold uniq. assert (H : NoDup (@nil string)) by constructor. revert H.
  generalize (@nil string). induction l as [|x t IH]; intros s H; simpl; [exact H|].
  apply IH, set_add_NoDup, H.
Qed.

Lemma NoDup_firstn_string n (l : list string) : NoDup l -> NoDup (firstn n l).
Proof.
  intros H. rewrite <- (firstn_skipn n l) in H. eapply NoDup_app_remove_r. exact H.
Qed.

Lemma keep_first_not_nil pre x t : existsb (String.eqb x) pre = false -> keep_first pre (x :: t) <> [].
Proof. intros E. simpl. rewrite E. discriminate. Qed.

(** *** Non-empty findings *)

Lemma fold_set_not_nil {A V} (f : amap string V -> A -> amap string V)
  (Hf : forall m a, f m a <> []) :
  forall l m, (m <> [] \/ l <> []) -> fold_left f l m <> [].
Proof.
  induction l as [|a t IH]; intros m H; simpl.
  - destruct H as [H|H]; [exact H|contradiction].
  - apply IH. left. apply Hf.
Qed.

Lemma groupByProduct_not_nil rows : rows <> [] -> groupByProduct rows <> [].
Proof.
  intros H. unfold groupByProduct. intros E. apply map_eq_nil in E. revert E.
  apply fold_set_not_nil; [intros; apply amap_set_not_nil|right; exact H].
Qed.

Lemma top_products_step_findings t bp acc :
  bp <> [] -> findings (top_products_step t bp acc) <> [].
Proof.
  intros H. unfold top_products_step.
  destruct (by_revenue bp) as [|p l] eqn:E.
  - exfalso. apply H. apply length_zero_iff_nil.
    unfold by_revenue in E. rewrite <- (js_sort_length (fun a b => num_sub (pa_revenue b) (pa_revenue a)) bp), E.
    reflexivity.
  - cbv zeta.
    destruct (firstn 3 (by_qty bp)); [|destruct (num_lt (Fin 0) t)];
      unfold push_finding, push_action; cbn [findings];
      intros Hc; repeat rewrite <- app_assoc in Hc; apply app_eq_nil in Hc;
      destruct Hc as [_ Hc]; discriminate Hc.
Qed.

Lemma collect_findings_not_nil rows : rows <> [] -> findings (collect rows) <> [].
Proof.
  intros H. unfold collect. cbv zeta.
  eapply extends_findings_not_nil; [apply anomalies_step_extends|].
  eapply extends_findings_not_nil; [apply seasonality_step_extends|].
  eapply extends_findings_not_nil; [apply spike_step_extends|].
  eapply extends_findings_not_nil; [apply steady_step_extends|].
  eapply extends_findings_not_nil; [apply concentration_step_extends|].
  eapply extends_findings_not_nil; [apply category_growth_step_extends|].
  eapply extends_findings_not_nil; [apply category_top_step_extends|].
  eapply extends_findings_not_nil; [apply mismatch_step_extends|].
  apply top_products_step_findings, groupByProduct_not_nil, H.
Qed.

(** C1: [generateInsights] returns three empty lists exactly when its
    argument is not an array or has fewer than 3 rows; for an array of at
    least 3 rows the findings are never empty. *)
Theorem generateInsights_min_rows_gate :
  (forall input : Input,
     generateInsights input = acc0 <->
     match input with InArray rows => (length rows < 3)%nat | InOther => True end) /\
  (forall rows : list Row, (3 <= length rows)%nat -> findings (generateInsights (InArray rows)) <> []).
Proof.
  assert (Hne : forall rows : list Row, (3 <= length rows)%nat ->
                findings (generateInsights (InArray rows)) <> []).
  { intros rows Hl. unfold generateInsights.
    replace (length rows <? MIN_ROWS_FOR_INSIGHTS)%nat with false
      by (symmetry; apply Nat.ltb_ge; exact Hl).
    assert (Hr : rows <> []) by (intros ->; simpl in Hl; lia).
    pose proof (collect_findings_not_nil rows Hr) as Hc.
    simpl. rewrite uniq_dedup_spec.
    destruct (findings (collect rows)) as [|x t]; [contradiction|].
    unfold dedup_spec. simpl. discriminate. }
  split; [|exact Hne].
  intros [rows|]; [|simpl; tauto].
  split.
  - intros E. destruct (Nat.lt_ge_cases (length rows) 3) as [L|L]; [exact L|].
    exfalso. apply (Hne rows L). rewrite E. reflexivity.
  - intros L. unfold generateInsights.
    replace (length rows <? MIN_ROWS_FOR_INSIGHTS)%nat with true
      by (symmetry; apply Nat.ltb_lt; exact L). reflexivity.
Qed.

(** C9: once the row gate passes, each output list is the list collected
    by the pipeline, deduplicated by string equality keeping first
    occurrences in order; findings are then cut to 6 and actions to 5,
    warnings are not cut. *)
Theorem generateInsights_dedup_and_cap (rows : list Row) :
  (3 <= length rows)%nat ->
  let out := generateInsights (InArray rows) in
  let raw := collect rows in
  findings out = firstn 6 (dedup_spec (findings raw)) /\
  actions out = firstn 5 (dedup_spec (actions raw)) /\
  warnings out = dedup_spec (warnings raw) /\
  NoDup (findings out) /\ NoDup (actions out) /\ NoDup (warnings out) /\
  (length (findings out) <= 6)%nat /\ (length (actions out) <= 5)%nat.
Proof.
  intros Hl. cbv zeta. unfold generateInsights.
  replace (length rows <? MIN_ROWS_FOR_INSIGHTS)%nat with false
    by (symmetry; apply Nat.ltb_ge; exact Hl).
  unfold finalize. cbn [findings actions warnings]. rewrite !uniq_dedup_spec.
  repeat split;
    try (apply NoDup_firstn_string); try (rewrite <- uniq_dedup_spec; apply uniq_NoDup);
    apply firstn_le_length.
Qed.

(** *** The date parser *)

Lemma dfy_succ y : day_from_year (y + 1) = day_from_year y + 365 + (if leap y then 1 else 0).
Proof.
  unfold day_from_year, leap.
  destruct (Z.eqb_spec (y mod 4) 0), (Z.eqb_spec (y mod 100) 0), (Z.eqb_spec (y mod 400) 0);
  cbn [andb orb negb]; Z.div_mod_to_equations; lia.
Qed.

Lemma dfy_le_366 z : 0 <= z -> day_from_year z <= 366 * z.
Proof. unfold day_from_year. intros. Z.div_mod_to_equations; lia. Qed.

Lemma dfy_ge_365 z : 0 <= z -> 365 * z <= day_from_year z.
Proof. unfold day_from_year. intros. Z.div_mod_to_equations; lia. Qed.

Lemma dfy_mono a b : a <= b -> day_from_year a <= day_from_year b.
Proof. unfold day_from_year. intros. Z.div_mod_to_equations; lia. Qed.

Lemma year_walk_spec fuel y0 Y n :
  y0 <= Y -> Y - y0 <= Z.of_nat fuel ->
  day_from_year Y <= n < day_from_year (Y + 1) -> year_walk fuel y0 n = Y.
Proof.
  revert y0. induction fuel as [|f IH]; intros y0 H1 H2 H3; cbn [year_walk]; [lia|].
  destruct (Z.leb_spec (day_from_year (y0 + 1)) n) as [Hle|Hgt].
  - assert (y0 < Y) by (destruct (Z.eq_dec y0 Y); [subst; lia|lia]).
    apply IH; lia.
  - destruct (Z.eq_dec y0 Y) as [->|Hne]; [reflexivity|].
    pose proof (dfy_mono (y0 + 1) Y ltac:(lia)). lia.
Qed.

Lemma year_from_day_spec Y k :
  0 <= Y -> 0 <= k < 365 + (if leap Y then 1 else 0) ->
  year_from_day (day_from_year Y + k) = Y.
Proof.
  intros HY Hk.
  pose proof (dfy_succ Y) as S1. pose proof (dfy_le_366 (Y + 1) ltac:(lia)) as S2.
  pose proof (dfy_ge_365 Y HY) as S3.
  assert (Hl : 0 <= (if leap Y then 1 else 0) <= 1) by (destruct (leap Y); lia).
  set (n := day_from_year Y + k).
  unfold year_from_day. destruct (Z.ltb_spec n 0) as [Hn|Hn]; [lia|].
  pose proof (Z.div_mod n 366 ltac:(lia)) as D. pose proof (Z.mod_pos_bound n 366 ltac:(lia)) as M.
  pose proof (Z.div_pos n 366 Hn ltac:(lia)) as P.
  apply year_walk_spec; [nia|rewrite Z2Nat.id by lia; rewrite Z.abs_eq by lia; lia|lia].
Qed.

Lemma zrange_In lo hi x : lo <= x <= hi -> In x (zrange lo hi).
Proof.
  intros H. unfold zrange. apply in_map_iff. exists (Z.to_nat (x - lo)). split.
  - rewrite Z2Nat.id by lia. lia.
  - apply in_seq. lia.
Qed.

Lemma month_cell_leap y1 y2 m d : leap y1 = leap y2 -> month_cell y1 m d = month_cell y2 m d.
Proof.
  intros H. unfold month_cell, month_of, days_before_month, days_in_month. rewrite H. reflexivity.
Qed.

Lemma month_cell_all y m d : 1 <= m <= 12 -> 1 <= d <= 31 -> month_cell y m d = true.
Proof.
  intros Hm Hd.
  assert (T : month_table_ok = true) by (vm_compute; reflexivity).
  unfold month_table_ok in T. rewrite forallb_forall in T.
  rewrite (month_cell_leap y (if leap y then 2000 else 2001)) by (destruct (leap y); reflexivity).
  specialize (T (if leap y then 2000 else 2001) ltac:(destruct (leap y); simpl; auto)).
  rewrite forallb_forall in T. specialize (T m (zrange_In 1 12 m Hm)).
  rewrite forallb_forall in T. exact (T d (zrange_In 1 31 d Hd)).
Qed.

Lemma days_in_month_le_31 y m : days_in_month y m <= 31.
Proof.
  unfold days_in_month. destruct (m =? 2); [destruct (leap y)|destruct (_ || _)]; lia.
Qed.

Lemma make_day_roundtrip Y m d :
  0 <= Y -> 1 <= m <= 12 -> 1 <= d <= 31 ->
  (getMonth (make_day Y (m - 1) d) = m - 1 <-> d <= days_in_month Y m) /\
  (d <= days_in_month Y m -> getDate (make_day Y (m - 1) d) = d).
Proof.
  intros HY Hm Hd.
  assert (Hn : make_day Y (m - 1) d = day_from_year Y + (days_before_month Y m + d - 1)).
  { unfold make_day. rewrite Z.div_small by lia. rewrite Z.mod_small by lia.
    rewrite Z.add_0_r. replace (m - 1 + 1) with m by lia. lia. }
  pose proof (month_cell_all Y m d Hm Hd) as C. unfold month_cell in C.
  set (k := days_before_month Y m + d - 1) in *.
  apply andb_prop in C as [C1 C]. apply andb_prop in C1 as [C0 C1].
  apply Z.leb_le in C0. apply Z.ltb_lt in C1.
  unfold getMonth, getDate. rewrite Hn, (year_from_day_spec Y k HY ltac:(lia)).
  replace (day_from_year Y + k - day_from_year Y) with k by lia.
  destruct (Z.leb_spec d (days_in_month Y m)) as [Hle|Hgt].
  - apply andb_prop in C as [Ca Cb]. apply Z.eqb_eq in Ca. apply Z.eqb_eq in Cb.
    rewrite Ca in *. split; [split; intros; lia|intros; exact Cb].
  - apply Bool.negb_true_iff, Z.eqb_neq in C. split; [split; intros; lia|intros; lia].
Qed.

Lemma js_year_nonneg y : 0 <= y -> 0 <= js_year y.
Proof. unfold js_year. intros. destruct (_ && _); lia. Qed.

Lemma parse_checked_result y m d : 0 <= y -> date_result (parse_checked y m d) y m d.
Proof.
  intros Hy. unfold parse_checked, date_result, valid_calendar_date.
  pose proof (days_in_month_le_31 (js_year y) m).
  destruct (Z.ltb_spec m 1), (Z.ltb_spec 12 m), (Z.ltb_spec d 1), (Z.ltb_spec 31 d);
    cbn [orb]; try lia.
  change (new_Date y (m - 1) d) with (make_day (js_year y) (m - 1) d).
  destruct (make_day_roundtrip (js_year y) m d (js_year_nonneg y Hy) ltac:(lia) ltac:(lia))
    as [HM HD].
  destruct (Z.leb_spec d (days_in_month (js_year y) m)) as [Hle|Hgt].
  - rewrite (HD Hle), (proj2 HM Hle), !Z.eqb_refl. cbn [negb orb].
    repeat split; lia.
  - destruct (Z.eqb_spec (getMonth (make_day (js_year y) (m - 1) d)) (m - 1)) as [E|E].
    + apply HM in E. lia.
    + rewrite Bool.orb_true_r. lia.
Qed.

Lemma is_digit_not_space c : is_digit c = true -> is_js_space c = false.
Proof.
  unfold is_digit, is_js_space. intros H. apply andb_prop in H as [H1 H2].
  apply Nat.leb_le in H1. apply Nat.leb_le in H2.
  apply Bool.not_true_iff_false. intros H.
  repeat (apply orb_prop in H as [H|H]); apply Nat.eqb_eq in H; lia.
Qed.

Lemma parse_digits_nonneg l : forallb is_digit l = true -> 0 <= parse_digits l.
Proof.
  unfold parse_digits. assert (G : forall a, 0 <= a -> forallb is_digit l = true ->
                                    0 <= fold_left (fun acc c => acc * 10 + digit_val c) l a).
  { induction l as [|c t IH]; intros a Ha H; [exact Ha|].
    cbn [forallb] in H. apply andb_prop in H as [Hc H]. cbn [fold_left]. apply IH; [|exact H].
    unfold is_digit in Hc. apply andb_prop in Hc as [H1 H2].
    apply Nat.leb_le in H1. unfold digit_val. lia. }
  intros H. apply G; [lia|exact H].
Qed.

Lemma match_ddmmyyyy_year_digits l g1 g2 g3 :
  match_ddmmyyyy l = Some (g1, g2, g3) -> forallb is_digit g3 = true.
Proof.
  intros H. unfold match_ddmmyyyy in H.
  destruct l as [|x1 [|x2 [|x3 [|x4 [|x5 [|x6 [|x7 [|x8 [|x9 [|x10 [|x11 l]]]]]]]]]]];
    try discriminate H.
  destruct (forallb is_digit _ && _ && _) eqn:E; [|discriminate H].
  injection H as <- <- <-. apply andb_prop in E as [E _]. apply andb_prop in E as [E _].
  cbn [forallb] in E |- *. repeat (apply andb_prop in E as [? E]).
  repeat match goal with Hd : is_digit _ = true |- _ => rewrite Hd; clear Hd end. reflexivity.
Qed.

Lemma match_yyyymmdd_year_digits l g1 g2 g3 :
  match_yyyymmdd l = Some (g1, g2, g3) -> forallb is_digit g1 = true.
Proof.
  intros H. unfold match_yyyymmdd in H.
  destruct l as [|x1 [|x2 [|x3 [|x4 [|x5 [|x6 [|x7 [|x8 [|x9 [|x10 [|x11 l]]]]]]]]]]];
    try discriminate H.
  destruct (forallb is_digit _ && _ && _) eqn:E; [|discriminate H].
  injection H as <- <- <-. apply andb_prop in E as [E _]. apply andb_prop in E as [E _].
  cbn [forallb] in E |- *. repeat (apply andb_prop in E as [? E]).
  repeat match goal with Hd : is_digit _ = true |- _ => rewrite Hd; clear Hd end. reflexivity.
Qed.

Lemma drop_space_keep c t : is_js_space c = false -> drop_space (c :: t) = c :: t.
Proof. intros H. cbn [drop_space]. rewrite H. reflexivity. Qed.

Lemma trim_keep l c t : l = c :: t -> is_js_space c = false ->
  (forall c' t', rev l = c' :: t' -> is_js_space c' = false) ->
  trim (string_of_list_ascii l) = string_of_list_ascii l.
Proof.
  intros -> Hc Hr. unfold trim. rewrite list_ascii_of_string_of_list_ascii.
  rewrite drop_space_keep by exact Hc.
  destruct (rev (c :: t)) as [|c' t'] eqn:E.
  - apply (f_equal (@length ascii)) in E. rewrite length_rev in E. discriminate E.
  - rewrite drop_space_keep by exact (Hr c' t' eq_refl). rewrite <- E, rev_involutive.
    reflexivity.
Qed.

Lemma parseDate_string_frame l :
  l <> [] ->
  trim (string_of_list_ascii l) = string_of_list_ascii l ->
  parseDate (JStr (string_of_list_ascii l)) =
  match match_ddmmyyyy l with
  | Some (g1, g2, g3) => parse_checked (parse_digits g3) (parse_digits g2) (parse_digits g1)
  | None =>
      match match_yyyymmdd l with
      | Some (g1, g2, g3) => parse_checked (parse_digits g1) (parse_digits g2) (parse_digits g3)
      | None => None
      end
  end.
Proof.
  intros Hne Ht. unfold parseDate. rewrite Ht, list_ascii_of_string_of_list_ascii.
  destruct l as [|c t]; [contradiction|]. reflexivity.
Qed.

(** [new Date] keeps the month lengths of every year from 1 on: only
    year 0 (read as 1900) differs from the calendar. *)
Lemma js_year_days_in_month y m :
  1 <= y -> days_in_month (js_year y) m = days_in_month y m.
Proof.
  intros Hy. unfold js_year.
  destruct (Z.leb_spec 0 y), (Z.leb_spec y 99); cbn [andb]; try reflexivity.
  assert (T : century_leap_ok = true) by (vm_compute; reflexivity).
  unfold century_leap_ok in T. rewrite forallb_forall in T.
  specialize (T y (zrange_In 1 99 y ltac:(lia))). apply Bool.eqb_prop in T.
  unfold days_in_month. rewrite T. reflexivity.
Qed.

Lemma date_result_calendar r y m d :
  1 <= y -> date_result r y m d -> calendar_result r y m d.
Proof.
  intros Hy. unfold date_result, calendar_result, valid_calendar_date.
  rewrite (js_year_days_in_month y m Hy). destruct r; tauto.
Qed.

Lemma parseDate_accepted v p :
  parseDate v = Some p ->
  exists s, v = JStr s /\ s <> EmptyString /\
    (match_ddmmyyyy (list_ascii_of_string (trim s)) <> None \/
     match_yyyymmdd (list_ascii_of_string (trim s)) <> None) /\
    1 <= pd_month p <= 12 /\ 1 <= pd_day p <= 31.
Proof.
  intros H. destruct v as [| | | |str]; try discriminate H.
  exists str. split; [reflexivity|].
  unfold parseDate in H. cbv zeta in H.
  destruct (String.eqb_spec str EmptyString) as [_|Hne]; [discriminate H|].
  split; [exact Hne|].
  destruct (match_ddmmyyyy (list_ascii_of_string (trim str))) as [[[g1 g2] g3]|] eqn:E1.
  - pose proof (parse_digits_nonneg _ (match_ddmmyyyy_year_digits _ _ _ _ E1)) as Hy.
    pose proof (parse_checked_result _ (parse_digits g2) (parse_digits g1) Hy) as R.
    rewrite H in R. destruct R as [[Vm Vd] [_ [Em Ed]]].
    pose proof (days_in_month_le_31 (js_year (parse_digits g3)) (parse_digits g2)).
    split; [left; discriminate|]. rewrite Em, Ed. lia.
  - destruct (match_yyyymmdd (list_ascii_of_string (trim str))) as [[[g1 g2] g3]|] eqn:E2;
      [|discriminate H].
    pose proof (parse_digits_nonneg _ (match_yyyymmdd_year_digits _ _ _ _ E2)) as Hy.
    pose proof (parse_checked_result _ (parse_digits g2) (parse_digits g3) Hy) as R.
    rewrite H in R. destruct R as [[Vm Vd] [_ [Em Ed]]].
    pose proof (days_in_month_le_31 (js_year (parse_digits g1)) (parse_digits g2)).
    split; [right; discriminate|]. rewrite Em, Ed. lia.
Qed.

Lemma parseDate_ddmmyyyy_digits a1 a2 b1 b2 c1 c2 c3 c4 :
  forallb is_digit [a1; a2; b1; b2; c1; c2; c3; c4] = true ->
  date_result
    (parseDate (JStr (string_of_list_ascii [a1; a2; "-"%char; b1; b2; "-"%char; c1; c2; c3; c4])))
    (parse_digits [c1; c2; c3; c4]) (parse_digits [b1; b2]) (parse_digits [a1; a2]).
Proof.
  intros H. pose proof H as Hd.
  cbn [forallb] in H. repeat (apply andb_prop in H as [? H]).
  rewrite parseDate_string_frame.
  2: intro Hc; discriminate Hc.
  2: { apply (trim_keep _ a1 _ eq_refl); [apply is_digit_not_space; assumption|].
       intros c' t' Hr. cbn [rev app] in Hr. injection Hr as <- _.
       apply is_digit_not_space; assumption. }
  replace (match_ddmmyyyy _) with (Some ([a1; a2], [b1; b2], [c1; c2; c3; c4]))
    by (unfold match_ddmmyyyy; rewrite Hd; reflexivity).
  apply parse_checked_result, parse_digits_nonneg. cbn [forallb].
  repeat match goal with Hx : is_digit ?x = true |- context [is_digit ?x] => rewrite Hx end.
  reflexivity.
Qed.

Lemma parseDate_yyyymmdd_digits a1 a2 a3 a4 b1 b2 c1 c2 :
  forallb is_digit [a1; a2; a3; a4; b1; b2; c1; c2] = true ->
  date_result
    (parseDate (JStr (string_of_list_ascii [a1; a2; a3; a4; "-"%char; b1; b2; "-"%char; c1; c2])))
    (parse_digits [a1; a2; a3; a4]) (parse_digits [b1; b2]) (parse_digits [c1; c2]).
Proof.
  intros H. pose proof H as Hd.
  cbn [forallb] in H. repeat (apply andb_prop in H as [? H]).
  rewrite parseDate_string_frame.
  2: intro Hc; discriminate Hc.
  2: { apply (trim_keep _ a1 _ eq_refl); [apply is_digit_not_space; assumption|].
       intros c' t' Hr. cbn [rev app] in Hr. injection Hr as <- _.
       apply is_digit_not_space; assumption. }
  replace (match_ddmmyyyy _) with (@None (list ascii * list ascii * list ascii)).
  2: { unfold match_ddmmyyyy. cbn [forallb].
       repeat match goal with Hx : is_digit ?x = true |- context [is_digit ?x] => rewrite Hx end.
       reflexivity. }
  replace (match_yyyymmdd _) with (Some ([a1; a2; a3; a4], [b1; b2], [c1; c2]))
    by (unfold match_yyyymmdd; rewrite Hd; reflexivity).
  apply parse_checked_result, parse_digits_nonneg. cbn [forallb].
  repeat match goal with Hx : is_digit ?x = true |- context [is_digit ?x] => rewrite Hx end.
  reflexivity.
Qed.

(** C7 (code bug): [parseDate] is total. It returns a result only for a
    non-empty string whose trimmed form matches DD-MM-YYYY or
    YYYY-MM-DD, with month in 1-12 and day in 1-31. For digit strings of
    either format with a year from 1 on, it returns the components
    exactly when they name a date of the calendar and rejects them
    otherwise. But 29-02-0000 is a date of the calendar (year 0 is a
    leap year) and is rejected in both formats: [new Date(0, 1, 29)]
    reads year 0 as 1900, which is not a leap year, and lands on 1 March,
    so the round-trip check fails. *)
Theorem parseDate_rejects_year0_leap_day :
  (forall v p, parseDate v = Some p ->
     exists s, v = JStr s /\ s <> EmptyString /\
       (match_ddmmyyyy (list_ascii_of_string (trim s)) <> None \/
        match_yyyymmdd (list_ascii_of_string (trim s)) <> None) /\
       1 <= pd_month p <= 12 /\ 1 <= pd_day p <= 31) /\
  (forall a1 a2 b1 b2 c1 c2 c3 c4 : ascii,
     forallb is_digit [a1; a2; b1; b2; c1; c2; c3; c4] = true ->
     1 <= parse_digits [c1; c2; c3; c4] ->
     calendar_result
       (parseDate (JStr (string_of_list_ascii [a1; a2; "-"%char; b1; b2; "-"%char; c1; c2; c3; c4])))
       (parse_digits [c1; c2; c3; c4]) (parse_digits [b1; b2]) (parse_digits [a1; a2])) /\
  (forall a1 a2 a3 a4 b1 b2 c1 c2 : ascii,
     forallb is_digit [a1; a2; a3; a4; b1; b2; c1; c2] = true ->
     1 <= parse_digits [a1; a2; a3; a4] ->
     calendar_result
       (parseDate (JStr (string_of_list_ascii [a1; a2; a3; a4; "-"%char; b1; b2; "-"%char; c1; c2])))
       (parse_digits [a1; a2; a3; a4]) (parse_digits [b1; b2]) (parse_digits [c1; c2])) /\
  valid_calendar_date 0 2 29 /\
  parseDate (JStr "29-02-0000") = None /\
  parseDate (JStr "0000-02-29") = None /\
  getMonth (new_Date 0 1 29) = 2 /\ getDate (new_Date 0 1 29) = 1 /\
  getMonth (make_day 0 1 29) = 1 /\ getDate (make_day 0 1 29) = 29.
Proof.
  split; [exact parseDate_accepted|].
  split.
  { intros a1 a2 b1 b2 c1 c2 c3 c4 H Hy.
    apply date_result_calendar; [exact Hy|]. apply parseDate_ddmmyyyy_digits; exact H. }
  split.
  { intros a1 a2 a3 a4 b1 b2 c1 c2 H Hy.
    apply date_result_calendar; [exact Hy|]. apply parseDate_yyyymmdd_digits; exact H. }
  split.
  { unfold valid_calendar_date. replace (days_in_month 0 2) with 29 by reflexivity. lia. }
  repeat split; vm_compute; reflexivity.
Qed.

(** *** The anomaly detector *)

Lemma filter_finite_nonneg pvs :
  filter (fun v => is_finite v && num_le (Fin 0) v) (map pv_value pvs)
  = map Fin (finite_nonneg_values pvs).
Proof.
  induction pvs as [|e t IH]; [reflexivity|].
  cbn [map filter]. rewrite IH. unfold finite_nonneg_values. cbn [flat_map].
  destruct (pv_value e) as [q| | |]; cbn [is_finite num_le andb]; try reflexivity.
  destruct (Qle_bool 0 q); reflexivity.
Qed.

Lemma fold_num_add_Fin l a : fold_left num_add (map Fin l) (Fin a) = Fin (fold_left Qplus l a).
Proof. revert a. induction l as [|x t IH]; intros a; simpl; [reflexivity|]. apply IH. Qed.

Lemma fold_sq_Fin l m a :
  fold_left (fun acc v => num_add acc (num_sq (num_sub v (Fin m)))) (map Fin l) (Fin a)
  = Fin (fold_left (fun acc v => acc + (v - m) * (v - m))%Q l a).
Proof. revert a. induction l as [|x t IH]; intros a; simpl; [reflexivity|]. apply IH. Qed.

Lemma Qeq_bool_count_false (n : nat) : (2 <= n)%nat -> Qeq_bool (inject_Z (Z.of_nat n)) 0%Q = false.
Proof.
  intros H. apply Qeq_bool_false. change 0%Q with (inject_Z 0). rewrite inject_Z_injective. lia.
Qed.

Lemma Qltb_asym a b : Qltb a b = true -> Qltb b a = false.
Proof.
  unfold Qltb. intros H. apply Bool.negb_true_iff in H.
  destruct (Qle_bool a b) eqn:E; [reflexivity|].
  exfalso. assert (H1 : ~ (b <= a)%Q) by (intro C; apply Qle_bool_iff in C; congruence).
  assert (H2 : ~ (a <= b)%Q) by (intro C; apply Qle_bool_iff in C; congruence).
  apply H1. apply Qlt_le_weak, Qnot_le_lt, H2.
Qed.

Lemma Qltb_irrefl a : Qltb a a = false.
Proof. unfold Qltb. rewrite (proj2 (Qle_bool_iff a a) (Qle_refl a)). reflexivity. Qed.

(** C6 (amended): [detectAnomalies] returns nothing when fewer than 2
    values are finite and non-negative; otherwise, with the population
    mean and the square root of the population variance (divided by the
    count) of those values, it lists in input order every entry with a
    finite value that is a spike ([value > avg] and ([pctChange >= 0.5]
    or [z >= 2])) or a drop ([value < avg] and ([pctChange >= 0.5] or
    [z <= -2])), where [pctChange] is 0 when the mean is 0 and [z] is 0
    unless the deviation is positive; non-finite entries are skipped, no
    value is both, and the mean itself is neither. *)
Theorem detectAnomalies_population_stats :
  (forall pvs, detectAnomalies pvs = anomalies_spec pvs) /\
  (forall m std v, is_spike m std v && is_drop m std v = false) /\
  (forall m std, is_spike m std m = false /\ is_drop m std m = false).
Proof.
  split; [|split].
  - intros pvs. unfold detectAnomalies, anomalies_spec.
    rewrite filter_finite_nonneg, length_map.
    destruct (length (finite_nonneg_values pvs) <? 2)%nat eqn:L; [reflexivity|].
    apply Nat.ltb_ge in L.
    unfold num_sum. rewrite fold_num_add_Fin.
    unfold num_of_Z. cbn [num_div]. rewrite (Qeq_bool_count_false _ L).
    rewrite fold_sq_Fin. cbn [num_div]. rewrite (Qeq_bool_count_false _ L).
    apply flat_map_ext. intros e.
    destruct (pv_value e) as [v| | |]; try reflexivity.
    unfold is_spike, is_drop, pct_change, z_score, pop_std, pop_variance, pop_mean.
    cbn [is_finite negb num_eqb].
    destruct (Qeq_bool (fold_left Qplus (finite_nonneg_values pvs) 0%Q /
                        inject_Z (Z.of_nat (length (finite_nonneg_values pvs)))) 0) eqn:Z0;
      cbn [negb]; [reflexivity|].
    cbn [num_sub num_neg num_add num_div num_abs]. rewrite Z0. reflexivity.
  - intros m std v. unfold is_spike, is_drop.
    destruct (Qltb m v) eqn:E; [|reflexivity].
    rewrite (Qltb_asym _ _ E). apply Bool.andb_false_r.
  - intros m std. unfold is_spike, is_drop. rewrite Qltb_irrefl. split; reflexivity.
Qed.

End Claims.

(** C3 (counterexample): [computeGrowth(7, 8)] computes
    [Math.round(-12.5) = -12], while rounding half away from zero gives
    -13. *)
Lemma computeGrowth_not_half_away :
  g_pct (computeGrowth (host := example_host) (num_of_Z 7) (num_of_Z 8)) = num_of_Z (-12) /\
  g_pct (computeGrowth (host := example_host) (num_of_Z 7) (num_of_Z 8))
  <> num_of_Z (round_half_away ((inject_Z 7 - inject_Z 8) / inject_Z 8 * 100)).
Proof.
  split.
  - vm_compute. reflexivity.
  - vm_compute. intro H. inversion H.
Qed.

(** C2 (code bug): the week key of Sunday 2025-03-16 is the Monday
    after it, 2025-03-17, not the Monday before it. *)
Theorem weekKey_sunday_goes_forward :
  option_map (fun p => (pd_dayOfWeek p, pd_weekKey p)) (parseDate (JStr "2025-03-16"))
    = Some (0, "2025-03-17"%string) /\
  option_map pd_dayOfWeek (parseDate (JStr "2025-03-17")) = Some 1 /\
  option_map pd_weekKey (parseDate (JStr "2025-03-10")) = Some "2025-03-10"%string.
Proof. vm_compute. repeat split. Qed.

(** C4 (code bug): with one month and three weeks of data no trend is
    reported: the weekly branch requires zero month keys. *)
Theorem weekly_fallback_missing :
  (forall h : Host,
     let byMonth := aggregateByMonth (host := h) rows_one_month in
     let monthKeys := sort_strings (map fst byMonth) in
     length monthKeys = 1%nat /\
     length (map fst (aggregateByWeek (host := h) rows_one_month)) = 3%nat /\
     trend (host := h) rows_one_month byMonth monthKeys (length monthKeys <? 2)%nat
       = (None, None)) /\
  forallb (fun f => negb (String.prefix "Revenue is" f))
    (findings (generateInsights (host := example_host) (InArray rows_one_month))) = true.
Proof.
  split.
  - intros h. vm_compute. repeat split.
  - vm_compute. reflexivity.
Qed.

(** witness for C10 *)
Lemma getQuantity_nullish_fallback_witness :
  getQuantity (host := example_host) (mk_row "01-01-2025" "A" 0 10) = Fin 0 /\
  getQuantity (host := example_host)
    {| r_date := JUndef; r_product := JUndef; r_category := JUndef; r_units := JNull;
       r_quantity := JNum (num_of_Z 5); r_price := JUndef; r_revenue := JUndef |} = num_of_Z 5 /\
  getQuantity (host := example_host)
    {| r_date := JUndef; r_product := JUndef; r_category := JUndef; r_units := JUndef;
       r_quantity := JNum (num_of_Z 7); r_price := JUndef; r_revenue := JUndef |} = num_of_Z 7 /\
  getQuantity (host := example_host)
    {| r_date := JUndef; r_product := JUndef; r_category := JUndef; r_units := JBool true;
       r_quantity := JNum (num_of_Z 5); r_price := JUndef; r_revenue := JUndef |} = Fin 1 /\
  getQuantity (host := example_host)
    {| r_date := JUndef; r_product := JUndef; r_category := JUndef; r_units := JStr "";
       r_quantity := JNum (num_of_Z 5); r_price := JUndef; r_revenue := JUndef |}
  = getQuantity (host := example_host)
    {| r_date := JUndef; r_product := JUndef; r_category := JUndef; r_units := JStr "";
       r_quantity := JNum (num_of_Z 9); r_price := JUndef; r_revenue := JUndef |} /\
  getQuantity (host := example_host)
    {| r_date := JUndef; r_product := JUndef; r_category := JUndef; r_units := JBool false;
       r_quantity := JNum (num_of_Z 5); r_price := JUndef; r_revenue := JUndef |} = Fin 0 /\
  getQuantity (host := example_host)
    {| r_date := JUndef; r_product := JUndef; r_category := JUndef; r_units := JNum NaN;
       r_quantity := JNum (num_of_Z 5); r_price := JUndef; r_revenue := JUndef |} = Fin 0 /\
  getQuantity (host := example_host)
    {| r_date := JUndef; r_product := JUndef; r_category := JUndef; r_units := JStr "";
       r_quantity := JNum (num_of_Z 5); r_price := JUndef; r_revenue := JUndef |}
  = (let n := Number_of_string (Host := example_host) "" in if is_finite n then n else Fin 0).
Proof.
  destruct (getQuantity_nullish_fallback (host := example_host))
    as [P1 [P2 [_ [_ [P5 [P6 [P7 [P8 [P9 [P10 _]]]]]]]]]].
  split; [apply P1; reflexivity|].
  split; [apply P2; reflexivity|].
  split; [rewrite P5 by (left; reflexivity); vm_compute; reflexivity|].
  split; [rewrite P6 by discriminate; vm_compute; reflexivity|].
  split; [apply P7; [reflexivity | discriminate | discriminate]|].
  split; [apply P8; reflexivity|].
  split; [apply P9; reflexivity|].
  apply P10; reflexivity.
Defined.

(** witness for C8 *)
Lemma quantity_revenue_accessors_witness :
  getRevenue (host := example_host) (mk_row "01-01-2025" "A" 2 10)
  = num_mul (getQuantity (host := example_host) (mk_row "01-01-2025" "A" 2 10)) (num_of_Z 10).
Proof.
  apply (proj1 (proj2 (proj2 (proj2 (quantity_revenue_accessors (host := example_host))))));
    reflexivity.
Defined.

(** witness for C3 *)
Lemma computeGrowth_rounds_half_up_witness :
  exists k : Z,
    (inject_Z k - (1 # 2) <= (inject_Z 7 - inject_Z 8) / inject_Z 8 * 100)%Q /\
    ((inject_Z 7 - inject_Z 8) / inject_Z 8 * 100 < inject_Z k + (1 # 2))%Q /\
    computeGrowth (host := example_host) (num_of_Z 7) (num_of_Z 8) =
      if 0 <? k then {| g_pct := num_of_Z k; g_direction := "up";
                        g_text := ("up " ++ print_int (num_of_Z k) ++ "%")%string |}
      else if k <? 0 then {| g_pct := num_of_Z k; g_direction := "down";
                             g_text := ("down " ++ print_int (num_of_Z (- k)) ++ "%")%string |}
      else {| g_pct := Fin 0; g_direction := "flat"; g_text := "flat" |}.
Proof.
  apply (proj1 (computeGrowth_rounds_half_up (host := example_host))).
  vm_compute. intro H. discriminate H.
Defined.

(** witness for C1 *)
Lemma generateInsights_min_rows_gate_witness :
  findings (generateInsights (host := example_host) (InArray rows_one_month)) <> [].
Proof. apply (proj2 (generateInsights_min_rows_gate (host := example_host))). simpl. lia. Defined.

(** witness for C5 *)
Lemma weekly_trend_unreachable_witness :
  aggregateByWeek (host := example_host) rows_no_dates = [].
Proof.
  apply (proj1 (weekly_trend_unreachable (host := example_host) rows_no_dates)).
  vm_compute. reflexivity.
Defined.

(** witness for C9 *)
Lemma generateInsights_dedup_and_cap_witness :
  (length (findings (generateInsights (host := example_host) (InArray rows_one_month))) <= 6)%nat.
Proof.
  apply (generateInsights_dedup_and_cap (host := example_host) rows_one_month). simpl. lia.
Defined.

(** C6 (counterexample): the values 0, 0, -1 have mean 0; as the claim
    reads, [|-1 - 0| / 0] is [Infinity >= 0.5], so -1 would be a drop,
    but the code takes [pctChange] (and [z]) as 0 and flags nothing. *)
Lemma detectAnomalies_zero_mean_not_flagged :
  let avg := Fin (pop_mean (finite_nonneg_values pvs_zero_mean)) in
  num_lt (Fin (-1)) avg = true /\
  num_le ANOMALY_CHANGE_THRESHOLD (num_div (num_abs (num_sub (Fin (-1)) avg)) avg) = true /\
  detectAnomalies (host := example_host) pvs_zero_mean = [].
Proof. vm_compute. repeat split. Qed.

(** witness for C6 *)
Lemma detectAnomalies_population_stats_witness :
  detectAnomalies (host := example_host) pvs_zero_mean
  = anomalies_spec (host := example_host) pvs_zero_mean.
Proof. apply (proj1 (detectAnomalies_population_stats (host := example_host))). Defined.

(** witness for C7 *)
Lemma parseDate_rejects_year0_leap_day_witness :
  calendar_result (parseDate (JStr "15-03-2025")) 2025 3 15 /\
  calendar_result (parseDate (JStr "2025-02-30")) 2025 2 30.
Proof.
  split.
  - exact (proj1 (proj2 parseDate_rejects_year0_leap_day) "1"%char "5"%char "0"%char "3"%char
             "2"%char "0"%char "2"%char "5"%char eq_refl ltac:(vm_compute; discriminate)).
  - exact (proj1 (proj2 (proj2 parseDate_rejects_year0_leap_day)) "2"%char "0"%char "2"%char
             "5"%char "0"%char "2"%char "3"%char "0"%char eq_refl ltac:(vm_compute; discriminate)).
Defined.

(* ------------------------------------------------------------------ *)
(** ** Further properties of the engine and of its caller *)

Section Extras.
Context {host : Host}.

Lemma fold_left_ext_pt {A B} (f g : A -> B -> A) (l : list B) (a : A) :
  (forall a x, f a x = g a x) -> fold_left f l a = fold_left g l a.
Proof. intro H. revert a; induction l as [|x t IH]; intro a; [reflexivity|]. simpl. rewrite H. apply IH. Qed.

Lemma fold_left_map_gen {A B C} (f : A -> B -> A) (g : C -> B) l a :
  fold_left f (map g l) a = fold_left (fun s x => f s (g x)) l a.
Proof. revert a; induction l as [|x t IH]; intro a; [reflexivity|]. apply IH. Qed.

Lemma fold_left_flat_map_gen {A B C} (f : A -> B -> A) (g : C -> list B) l a :
  fold_left f (flat_map g l) a = fold_left (fun s x => fold_left f (g x) s) l a.
Proof. revert a; induction l as [|x t IH]; intro a; [reflexivity|]. simpl. rewrite fold_left_app. apply IH. Qed.

Lemma amap_set_keys {V} k (v : V) m :
  map fst (amap_set String.eqb k v m) = set_add k (map fst m).
Proof.
  induction m as [|[k' v'] t IH]; [reflexivity|].
  cbn [amap_set map fst]. unfold set_add in *. cbn [existsb].
  destruct (String.eqb k k') eqn:E; [reflexivity|].
  cbn [orb map fst]. rewrite IH. destruct (existsb (String.eqb k) (map fst t)); reflexivity.
Qed.

Lemma group_fold_keys {V} key (upd : option V -> Row -> V) rows m0 :
  map fst (group_fold key upd rows m0) =
  fold_left (fun s r => match key r with Some k => set_add k s | None => s end) rows (map fst m0).
Proof.
  unfold group_fold. revert m0; induction rows as [|r t IH]; intro m0; [reflexivity|].
  simpl. destruct (key r) eqn:E; rewrite IH; [rewrite amap_set_keys|]; reflexivity.
Qed.

Lemma amap_get_In {V} k (w : V) m : amap_get String.eqb k m = Some w -> In (k, w) m.
Proof.
  induction m as [|[k' v'] t IH]; [discriminate|]. simpl.
  destruct (String.eqb k k') eqn:E.
  - apply String.eqb_eq in E. subst. intros [= ->]. left; reflexivity.
  - intro H. right. apply IH, H.
Qed.

Lemma amap_set_Forall {V} (Q : string -> V -> Prop) k v m :
  Q k v -> Forall (fun e => Q (fst e) (snd e)) m ->
  Forall (fun e => Q (fst e) (snd e)) (amap_set String.eqb k v m).
Proof.
  intros Hv. induction m as [|[k' v'] t IH]; intro Hm; simpl.
  - constructor; [exact Hv | constructor].
  - inversion Hm as [|? ? Hh Ht]; subst.
    destruct (String.eqb k k') eqn:E.
    + apply String.eqb_eq in E. subst. constructor; assumption.
    + constructor; [assumption | apply IH, Ht].
Qed.

Lemma group_fold_Forall {V} key (upd : option V -> Row -> V) (Q : string -> V -> Prop)
  (HQ : forall k o r, key r = Some k -> (forall w, o = Some w -> Q k w) -> Q k (upd o r))
  rows m0 :
  Forall (fun e => Q (fst e) (snd e)) m0 ->
  Forall (fun e => Q (fst e) (snd e)) (group_fold key upd rows m0).
Proof.
  unfold group_fold. revert m0; induction rows as [|r t IH]; intros m0 H0; [exact H0|].
  simpl. apply IH. destruct (key r) as [k|] eqn:E; [|exact H0].
  apply amap_set_Forall; [|exact H0].
  apply HQ; [exact E|]. intros w Hw. apply amap_get_In in Hw.
  rewrite Forall_forall in H0. exact (H0 _ Hw).
Qed.

Local Open Scope Q_scope.

Lemma amap_set_sumA {V} (g : V -> Q) k v m :
  sumA g (amap_set String.eqb k v m) ==
  sumA g m - match amap_get String.eqb k m with Some w => g w | None => 0 end + g v.
Proof.
  induction m as [|[k' v'] t IH]; unfold sumA in *; simpl.
  - lra.
  - destruct (String.eqb k k'); simpl; [lra|]. rewrite IH. lra.
Qed.

Lemma group_fold_sumA {V} key (upd : option V -> Row -> V) (P : V -> Prop) (g : V -> Q)
  (c : Row -> Q)
  (HP : forall o r, (forall w, o = Some w -> P w) -> P (upd o r))
  (Hg : forall o r, (forall w, o = Some w -> P w) ->
        g (upd o r) == match o with Some w => g w | None => 0 end + c r)
  rows m0 :
  Forall (fun e => P (snd e)) m0 ->
  sumA g (group_fold key upd rows m0) ==
  sumA g m0 + fold_right (fun r s => match key r with Some _ => c r | None => 0 end + s) 0 rows.
Proof.
  unfold group_fold. revert m0; induction rows as [|r t IH]; intros m0 H0; simpl; [lra|].
  destruct (key r) as [k|] eqn:E.
  - assert (Ho : forall w, amap_get String.eqb k m0 = Some w -> P w).
    { intros w Hw. apply amap_get_In in Hw. rewrite Forall_forall in H0. exact (H0 _ Hw). }
    rewrite IH.
    + rewrite amap_set_sumA, (Hg _ _ Ho).
      destruct (amap_get String.eqb k m0); lra.
    + apply (amap_set_Forall (fun _ v => P v)); [apply HP, Ho | exact H0].
  - rewrite IH by exact H0. lra.
Qed.

Lemma fold_num_add_finite {A} (f : A -> num) l a :
  Forall (fun x => is_finite (f x) = true) l ->
  exists b, fold_left (fun s x => num_add s (f x)) l (Fin a) = Fin b /\
            b == a + fold_right (fun x s => qv (f x) + s) 0 l.
Proof.
  revert a; induction l as [|x t IH]; intros a H; simpl.
  - exists a. split; [reflexivity | lra].
  - inversion H as [|? ? Hx Ht]; subst.
    destruct (f x) as [q| | |] eqn:Fx; try discriminate. simpl.
    destruct (IH (a + q) Ht) as [b [Hb1 Hb2]]. exists b. split; [exact Hb1|].
    rewrite Hb2. lra.
Qed.

Lemma sumA_map_snd {V} (g : V -> Q) m :
  sumA g m = fold_right (fun x s => g x + s) 0 (map snd m).
Proof. induction m as [|e t IH]; [reflexivity|]. unfold sumA in *. simpl. rewrite IH. reflexivity. Qed.

Local Open Scope Z_scope.

Lemma getQuantity_finite row : is_finite (getQuantity row) = true.
Proof.
  unfold getQuantity. cbv zeta. set (n := ToNumber _).
  destruct (is_finite n) eqn:E; [exact E | reflexivity].
Qed.

Lemma getRevenue_finite row : is_finite (getRevenue row) = true.
Proof.
  assert (Hm : is_finite (let p := ToNumber (r_price row) in
                          if is_finite p then num_mul (getQuantity row) p else Fin 0) = true).
  { cbv zeta. pose proof (getQuantity_finite row) as Hq.
    destruct (getQuantity row); try discriminate.
    destruct (ToNumber (r_price row)); reflexivity. }
  unfold getRevenue. destruct (r_revenue row); try exact Hm.
  destruct (is_finite n) eqn:E; [exact E | exact Hm].
Qed.


Lemma qv_add x y : is_finite x = true -> is_finite y = true ->
  (qv (num_add x y) == qv x + qv y)%Q.
Proof. destruct x, y; try discriminate. intros _ _. simpl. reflexivity. Qed.

Lemma is_finite_add x y : is_finite x = true -> is_finite y = true -> is_finite (num_add x y) = true.
Proof. destruct x, y; try discriminate. reflexivity. Qed.

Lemma fold_right_filter_key (key : Row -> option string) (h : Row -> Q) rows :
  (fold_right (fun x s => h x + s) 0
     (filter (fun r => match key r with Some _ => true | None => false end) rows) ==
   fold_right (fun r s => match key r with Some _ => h r | None => 0 end + s) 0 rows)%Q.
Proof.
  induction rows as [|r t IH]; simpl; [reflexivity|].
  destruct (key r); simpl; lra.
Qed.

Lemma Forall_map_snd {V} (P : V -> Prop) (m : amap string V) :
  Forall (fun e => P (snd e)) m -> Forall P (map snd m).
Proof. induction 1; simpl; constructor; assumption. Qed.

(** summing one field over the groups gives the sum of the rows that have a key *)
Lemma group_fold_total {V} key (upd : option V -> Row -> V) (f : V -> num) (c : Row -> num)
  (Hc : forall r, is_finite (c r) = true)
  (Hupd : forall o r, f (upd o r) = num_add (match o with Some w => f w | None => Fin 0 end) (c r))
  rows :
  exists a b, num_sum (map f (map snd (group_fold key upd rows []))) = Fin a /\
    fold_left (fun s r => num_add s (c r))
      (filter (fun r => match key r with Some _ => true | None => false end) rows) (Fin 0) = Fin b /\
    (a == b)%Q.
Proof.
  set (P := fun v => is_finite (f v) = true).
  assert (HP : forall o r, (forall w, o = Some w -> P w) -> P (upd o r)).
  { intros o r Ho. unfold P. rewrite Hupd. apply is_finite_add; [|apply Hc].
    destruct o as [w|]; [apply (Ho w eq_refl) | reflexivity]. }
  assert (HF : Forall P (map snd (group_fold key upd rows []))).
  { apply Forall_map_snd.
    apply (group_fold_Forall key upd (fun _ v => P v)); [|constructor].
    intros k o r _ Ho. apply HP, Ho. }
  assert (Hs := group_fold_sumA key upd P (fun v => qv (f v)) (fun r => qv (c r)) HP).
  assert (Hs' : forall rows m0, Forall (fun e => P (snd e)) m0 ->
     (sumA (fun v => qv (f v)) (group_fold key upd rows m0) ==
      sumA (fun v => qv (f v)) m0 +
      fold_right (fun r s => match key r with Some _ => qv (c r) | None => 0 end + s) 0 rows)%Q).
  { apply Hs. intros o r Ho. rewrite Hupd. rewrite qv_add; [| |apply Hc].
    - destruct o as [w|]; reflexivity.
    - destruct o as [w|]; [apply (Ho w eq_refl) | reflexivity]. }
  specialize (Hs' rows [] (Forall_nil _)).
  unfold num_sum. rewrite fold_left_map_gen.
  destruct (fold_num_add_finite f _ 0%Q HF) as [a [Ha1 Ha2]].
  assert (HR : Forall (fun r => is_finite (c r) = true)
                 (filter (fun r => match key r with Some _ => true | None => false end) rows)).
  { apply Forall_forall. intros r _. apply Hc. }
  destruct (fold_num_add_finite c _ 0%Q HR) as [b [Hb1 Hb2]].
  exists a, b. split; [exact Ha1|]. split; [exact Hb1|].
  rewrite Ha2, Hb2, fold_right_filter_key. rewrite sumA_map_snd in Hs'.
  simpl in Hs'. lra.
Qed.

Lemma set_add_In x k s : In x (set_add k s) <-> x = k \/ In x s.
Proof.
  unfold set_add. destruct (existsb (String.eqb k) s) eqn:E.
  - apply existsb_eqb_In in E. split; [tauto|]. intros [->|H]; assumption.
  - rewrite in_app_iff. simpl. split.
    + intros [H|[H|[]]]; [right; exact H | left; symmetry; exact H].
    + intros [H|H]; [right; left; symmetry; exact H | left; exact H].
Qed.

Lemma fold_set_add_In x l s0 :
  In x (fold_left (fun s y => set_add y s) l s0) <-> In x s0 \/ In x l.
Proof.
  revert s0; induction l as [|y t IH]; intro s0; simpl; [tauto|].
  rewrite IH, set_add_In. split; intro H; intuition (subst; auto).
Qed.

Lemma uniq_In x l : In x (uniq l) <-> In x l.
Proof. unfold uniq. rewrite fold_set_add_In. simpl. tauto. Qed.

Lemma map_snd_key {V} (f : V -> string) (m : amap string V) :
  Forall (fun e => f (snd e) = fst e) m -> map f (map snd m) = map fst m.
Proof. induction 1; simpl; congruence. Qed.

Lemma groupByProduct_fold rows :
  groupByProduct rows = map snd (group_fold (fun r => Some (product_name r)) product_step rows []).
Proof. reflexivity. Qed.

Lemma groupByCategory_fold rows :
  groupByCategory rows = map snd (group_fold (fun r => Some (category_name r)) category_step rows []).
Proof. reflexivity. Qed.

Lemma aggregateByMonth_fold rows : aggregateByMonth rows = group_fold month_of_row agg_step rows [].
Proof.
  unfold aggregateByMonth, group_fold. apply fold_left_ext_pt. intros m r.
  unfold month_of_row. destruct (parseDate (r_date r)); reflexivity.
Qed.

Lemma aggregateByWeek_fold rows : aggregateByWeek rows = group_fold week_of_row agg_step rows [].
Proof.
  unfold aggregateByWeek, group_fold. apply fold_left_ext_pt. intros m r.
  unfold week_of_row. destruct (parseDate (r_date r)); reflexivity.
Qed.

Lemma product_name_nonempty r : product_name r <> ""%string.
Proof. unfold product_name. cbv zeta. destruct (String.eqb _ "") eqn:E; [discriminate|].
  intro H. rewrite H in E. discriminate. Qed.

Lemma category_name_nonempty r : category_name r <> ""%string.
Proof. unfold category_name. cbv zeta. destruct (String.eqb _ "") eqn:E; [discriminate|].
  intro H. rewrite H in E. discriminate. Qed.

Lemma filter_all {A} (l : list A) : filter (fun _ => true) l = l.
Proof. induction l; simpl; congruence. Qed.

Lemma filter_month_dated rows :
  filter (fun r => match month_of_row r with Some _ => true | None => false end) rows = filter dated rows.
Proof. apply filter_ext. intro r. unfold month_of_row, dated. destruct (parseDate (r_date r)); reflexivity. Qed.

Lemma filter_week_dated rows :
  filter (fun r => match week_of_row r with Some _ => true | None => false end) rows = filter dated rows.
Proof. apply filter_ext. intro r. unfold week_of_row, dated. destruct (parseDate (r_date r)); reflexivity. Qed.

Lemma groupByProduct_keys rows :
  map pa_product (groupByProduct rows) = uniq (map product_name rows).
Proof.
  rewrite groupByProduct_fold, map_snd_key.
  - rewrite group_fold_keys. unfold uniq. rewrite fold_left_map_gen. reflexivity.
  - apply (group_fold_Forall _ _ (fun k v => pa_product v = k)); [|constructor].
    intros k o r [= <-] Ho. unfold product_step.
    destruct o as [w|]; simpl; [apply Ho|]; reflexivity.
Qed.

Lemma groupByCategory_keys rows :
  map ca_category (groupByCategory rows) = uniq (map category_name rows).
Proof.
  rewrite groupByCategory_fold, map_snd_key.
  - rewrite group_fold_keys. unfold uniq. rewrite fold_left_map_gen. reflexivity.
  - apply (group_fold_Forall _ _ (fun k v => ca_category v = k)); [|constructor].
    intros k o r [= <-] Ho. unfold category_step.
    destruct o as [w|]; simpl; [apply Ho|]; reflexivity.
Qed.

(** [groupByProduct] has one entry per distinct product name, in order of
    first appearance, and no product name is empty (the fallback is
    "Unknown"). *)
Theorem groupByProduct_products rows :
  map pa_product (groupByProduct rows) = uniq (map product_name rows) /\
  ~ In ""%string (map pa_product (groupByProduct rows)).
Proof.
  split; [apply groupByProduct_keys|]. rewrite groupByProduct_keys, uniq_In, in_map_iff.
  intros [r [Hr _]]. exact (product_name_nonempty r Hr).
Qed.

(** summed over the entries of [groupByProduct], revenue and quantity
    equal the totals over all rows, as exact sums *)
Theorem groupByProduct_totals rows :
  (exists a b, num_sum (map pa_revenue (groupByProduct rows)) = Fin a /\
               total_revenue rows = Fin b /\ (a == b)%Q) /\
  (exists a b, num_sum (map pa_quantity (groupByProduct rows)) = Fin a /\
               total_quantity rows = Fin b /\ (a == b)%Q).
Proof.
  rewrite groupByProduct_fold. unfold total_revenue, total_quantity. split.
  - destruct (group_fold_total (fun r => Some (product_name r)) product_step pa_revenue getRevenue
                getRevenue_finite) with (rows := rows) as [a [b [H1 [H2 H3]]]].
    { intros [w|] r; reflexivity. }
    rewrite filter_all in H2. eauto.
  - destruct (group_fold_total (fun r => Some (product_name r)) product_step pa_quantity getQuantity
                getQuantity_finite) with (rows := rows) as [a [b [H1 [H2 H3]]]].
    { intros [w|] r; reflexivity. }
    rewrite filter_all in H2. eauto.
Qed.

(** [groupByCategory] has one entry per distinct category name, in order
    of first appearance, and no category name is empty (the fallback is
    "Uncategorized"). *)
Theorem groupByCategory_categories rows :
  map ca_category (groupByCategory rows) = uniq (map category_name rows) /\
  ~ In ""%string (map ca_category (groupByCategory rows)).
Proof.
  split; [apply groupByCategory_keys|]. rewrite groupByCategory_keys, uniq_In, in_map_iff.
  intros [r [Hr _]]. exact (category_name_nonempty r Hr).
Qed.

(** summed over the entries of [groupByCategory], revenue and quantity
    equal the totals over all rows, as exact sums *)
Theorem groupByCategory_totals rows :
  (exists a b, num_sum (map ca_revenue (groupByCategory rows)) = Fin a /\
               total_revenue rows = Fin b /\ (a == b)%Q) /\
  (exists a b, num_sum (map ca_quantity (groupByCategory rows)) = Fin a /\
               total_quantity rows = Fin b /\ (a == b)%Q).
Proof.
  rewrite groupByCategory_fold. unfold total_revenue, total_quantity. split.
  - destruct (group_fold_total (fun r => Some (category_name r)) category_step ca_revenue getRevenue
                getRevenue_finite) with (rows := rows) as [a [b [H1 [H2 H3]]]].
    { intros [w|] r; reflexivity. }
    rewrite filter_all in H2. eauto.
  - destruct (group_fold_total (fun r => Some (category_name r)) category_step ca_quantity getQuantity
                getQuantity_finite) with (rows := rows) as [a [b [H1 [H2 H3]]]].
    { intros [w|] r; reflexivity. }
    rewrite filter_all in H2. eauto.
Qed.

Lemma group_fold_keys_NoDup {V} key (upd : option V -> Row -> V) rows :
  NoDup (map fst (group_fold key upd rows [])).
Proof.
  rewrite group_fold_keys. simpl.
  assert (H : forall s, NoDup s -> NoDup (fold_left (fun s r =>
            match key r with Some k => set_add k s | None => s end) rows s)).
  { induction rows as [|r t IH]; intros s0 Hs; simpl; [exact Hs|].
    apply IH. destruct (key r); [apply set_add_NoDup|]; exact Hs. }
  apply H. constructor.
Qed.

Lemma aggregateByMonth_keys rows :
  map fst (aggregateByMonth rows) =
    uniq (flat_map (fun r => match parseDate (r_date r) with
                             | Some p => [month_key p] | None => [] end) rows).
Proof.
  rewrite aggregateByMonth_fold, group_fold_keys. unfold uniq. rewrite fold_left_flat_map_gen.
  apply fold_left_ext_pt. intros s r. unfold month_of_row.
  destruct (parseDate (r_date r)); reflexivity.
Qed.

Lemma aggregateByWeek_keys rows :
  map fst (aggregateByWeek rows) =
    uniq (flat_map (fun r => match parseDate (r_date r) with
                             | Some p => [pd_weekKey p] | None => [] end) rows).
Proof.
  rewrite aggregateByWeek_fold, group_fold_keys. unfold uniq. rewrite fold_left_flat_map_gen.
  apply fold_left_ext_pt. intros s r. unfold week_of_row.
  destruct (parseDate (r_date r)); reflexivity.
Qed.

(** [aggregateByMonth] and [aggregateByWeek] have one entry per distinct
    month key, resp. week key, of the rows whose date parses, in order of
    first appearance; rows with a missing or invalid date are skipped. *)
Theorem aggregate_period_keys rows :
  map fst (aggregateByMonth rows) =
    uniq (flat_map (fun r => match parseDate (r_date r) with
                             | Some p => [month_key p] | None => [] end) rows) /\
  map fst (aggregateByWeek rows) =
    uniq (flat_map (fun r => match parseDate (r_date r) with
                             | Some p => [pd_weekKey p] | None => [] end) rows).
Proof. split; [apply aggregateByMonth_keys | apply aggregateByWeek_keys]. Qed.

(** summed over the entries of [aggregateByMonth] (or of
    [aggregateByWeek]), revenue and quantity equal the totals over the
    rows whose date parses, as exact sums *)
Theorem aggregate_period_totals rows :
  (exists a b, num_sum (map ag_revenue (map snd (aggregateByMonth rows))) = Fin a /\
               total_revenue (filter dated rows) = Fin b /\ (a == b)%Q) /\
  (exists a b, num_sum (map ag_quantity (map snd (aggregateByMonth rows))) = Fin a /\
               total_quantity (filter dated rows) = Fin b /\ (a == b)%Q) /\
  (exists a b, num_sum (map ag_revenue (map snd (aggregateByWeek rows))) = Fin a /\
               total_revenue (filter dated rows) = Fin b /\ (a == b)%Q) /\
  (exists a b, num_sum (map ag_quantity (map snd (aggregateByWeek rows))) = Fin a /\
               total_quantity (filter dated rows) = Fin b /\ (a == b)%Q).
Proof.
  rewrite aggregateByMonth_fold, aggregateByWeek_fold. unfold total_revenue, total_quantity.
  split; [|split; [|split]].
  - destruct (group_fold_total month_of_row agg_step ag_revenue getRevenue
                getRevenue_finite) with (rows := rows) as [a [b [H1 [H2 H3]]]].
    { intros [w|] r; reflexivity. }
    rewrite filter_month_dated in H2. eauto.
  - destruct (group_fold_total month_of_row agg_step ag_quantity getQuantity
                getQuantity_finite) with (rows := rows) as [a [b [H1 [H2 H3]]]].
    { intros [w|] r; reflexivity. }
    rewrite filter_month_dated in H2. eauto.
  - destruct (group_fold_total week_of_row agg_step ag_revenue getRevenue
                getRevenue_finite) with (rows := rows) as [a [b [H1 [H2 H3]]]].
    { intros [w|] r; reflexivity. }
    rewrite filter_week_dated in H2. eauto.
  - destruct (group_fold_total week_of_row agg_step ag_quantity getQuantity
                getQuantity_finite) with (rows := rows) as [a [b [H1 [H2 H3]]]].
    { intros [w|] r; reflexivity. }
    rewrite filter_week_dated in H2. eauto.
Qed.


(** sorting *)

Lemma insert_by_perm {A} (cmp : A -> A -> num) x l : Permutation (insert_by cmp x l) (x :: l).
Proof.
  induction l as [|y t IH]; cbn [insert_by]; [reflexivity|].
  destruct (num_lt (Fin 0) (cmp y x)); [reflexivity|].
  rewrite IH. apply perm_swap.
Qed.

Lemma js_sort_perm {A} (cmp : A -> A -> num) l : Permutation (js_sort cmp l) l.
Proof.
  unfold js_sort.
  assert (H : forall acc, Permutation (fold_left (fun acc x => insert_by cmp x acc) l acc) (l ++ acc)).
  { induction l as [|x t IH]; intro acc; simpl; [reflexivity|].
    rewrite IH, insert_by_perm. symmetry. apply Permutation_middle. }
  rewrite H, app_nil_r. reflexivity.
Qed.

Section Sorting.
Context {A : Type} (cmp : A -> A -> num).

(** [a] may stay before [b]: [cmp(a, b) > 0] does not hold *)
Let R a b := num_lt (Fin 0) (cmp a b) = false.

Hypothesis cmp_asym : forall a b, num_lt (Fin 0) (cmp a b) = true -> num_lt (Fin 0) (cmp b a) = false.

Lemma insert_by_HdRel y x t : R y x -> HdRel R y t -> HdRel R y (insert_by cmp x t).
Proof.
  intros Hyx Ht. destruct t as [|z u]; cbn [insert_by].
  - constructor. exact Hyx.
  - destruct (num_lt (Fin 0) (cmp z x)); constructor; [exact Hyx|].
    inversion Ht; assumption.
Qed.

Lemma insert_by_sorted x l : Sorted R l -> Sorted R (insert_by cmp x l).
Proof.
  induction l as [|y t IH]; intro Hs; cbn [insert_by].
  - repeat constructor.
  - inversion Hs as [|? ? Ht Hh]; subst.
    destruct (num_lt (Fin 0) (cmp y x)) eqn:E.
    + constructor; [exact Hs|]. constructor. apply cmp_asym, E.
    + constructor; [apply IH, Ht|]. apply insert_by_HdRel; assumption.
Qed.

Lemma js_sort_sorted l : Sorted R (js_sort cmp l).
Proof.
  unfold js_sort.
  assert (H : forall acc, Sorted R acc -> Sorted R (fold_left (fun acc x => insert_by cmp x acc) l acc)).
  { induction l as [|x t IH]; intros acc Ha; simpl; [exact Ha|].
    apply IH, insert_by_sorted, Ha. }
  apply H. constructor.
Qed.

End Sorting.

Lemma Sorted_weaken {A} (P : A -> Prop) (R R' : A -> A -> Prop)
  (H : forall a b, P a -> P b -> R a b -> R' a b) l :
  Forall P l -> Sorted R l -> Sorted R' l.
Proof.
  induction l as [|x t IH]; intros HF HS; [constructor|].
  inversion HF as [|? ? Px Pt]; inversion HS as [|? ? St Hd]; subst.
  constructor; [apply IH; assumption|].
  destruct t as [|y u]; constructor. inversion Hd; subst.
  inversion Pt; subst. apply H; assumption.
Qed.

Lemma num_sub_asym a b :
  num_lt (Fin 0) (num_sub a b) = true -> num_lt (Fin 0) (num_sub b a) = false.
Proof.
  destruct a as [x| | |], b as [y| | |]; simpl; try discriminate; try reflexivity.
  unfold Qltb. intro H.
  destruct (Qle_bool (y + - x) 0) eqn:E2; [reflexivity|]. exfalso.
  destruct (Qle_bool (x + - y) 0) eqn:E1; [discriminate|].
  assert (H1 : ~ (x + - y <= 0)%Q) by (rewrite <- Qle_bool_iff; congruence).
  assert (H2 : ~ (y + - x <= 0)%Q) by (rewrite <- Qle_bool_iff; congruence).
  apply Qnot_le_lt in H1, H2. lra.
Qed.

Lemma by_key_sorted {B} (f : B -> num) l :
  Forall (fun p => is_finite (f p) = true) l ->
  StronglySorted (fun a b => qv (f b) <= qv (f a))%Q (js_sort (fun a b => num_sub (f b) (f a)) l).
Proof.
  intro HF. apply Sorted_StronglySorted.
  { intros a b c H1 H2. lra. }
  apply (Sorted_weaken (fun p => is_finite (f p) = true)
           (fun a b => num_lt (Fin 0) (num_sub (f b) (f a)) = false)).
  - intros a b Ha Hb. destruct (f a) as [x| | |], (f b) as [y| | |]; try discriminate.
    simpl. unfold Qltb. rewrite negb_false_iff, Qle_bool_iff. intro H. lra.
  - apply (Permutation_Forall (Permutation_sym (js_sort_perm _ l))), HF.
  - apply (js_sort_sorted (fun a b => num_sub (f b) (f a))).
    intros a b. apply num_sub_asym.
Qed.

Lemma groupByProduct_finite rows :
  Forall (fun p => is_finite (pa_revenue p) = true /\ is_finite (pa_quantity p) = true)
    (groupByProduct rows).
Proof.
  rewrite groupByProduct_fold. apply Forall_map_snd.
  apply (group_fold_Forall _ _ (fun _ p => is_finite (pa_revenue p) = true /\
                                          is_finite (pa_quantity p) = true)); [|constructor].
  intros k o r _ Ho. unfold product_step.
  assert (Hc : is_finite (pa_revenue (match o with Some c => c | None =>
             {| pa_product := product_name r; pa_revenue := Fin 0; pa_quantity := Fin 0;
                pa_category := normCat (r_category r) |} end)) = true /\
             is_finite (pa_quantity (match o with Some c => c | None =>
             {| pa_product := product_name r; pa_revenue := Fin 0; pa_quantity := Fin 0;
                pa_category := normCat (r_category r) |} end)) = true).
  { destruct o as [w|]; [apply (Ho w eq_refl) | split; reflexivity]. }
  destruct Hc as [H1 H2]. simpl.
  split; apply is_finite_add; auto using getRevenue_finite, getQuantity_finite.
Qed.

(** the product rankings of [generateInsights] reorder [groupByProduct]
    by non-increasing revenue, resp. quantity *)
Theorem groupByProduct_rankings rows :
  Permutation (by_revenue (groupByProduct rows)) (groupByProduct rows) /\
  StronglySorted (fun a b => qv (pa_revenue b) <= qv (pa_revenue a))%Q
    (by_revenue (groupByProduct rows)) /\
  Permutation (by_qty (groupByProduct rows)) (groupByProduct rows) /\
  StronglySorted (fun a b => qv (pa_quantity b) <= qv (pa_quantity a))%Q
    (by_qty (groupByProduct rows)).
Proof.
  pose proof (groupByProduct_finite rows) as HF.
  split; [apply js_sort_perm|]. split; [|split; [apply js_sort_perm|]].
  - apply (by_key_sorted pa_revenue). refine (Forall_impl _ _ HF). intros a [H1 H2]. exact H1.
  - apply (by_key_sorted pa_quantity). refine (Forall_impl _ _ HF). intros a [H1 H2]. exact H2.
Qed.

Lemma string_lt_trans a b c :
  String.compare a b = Lt -> String.compare b c = Lt -> String.compare a c = Lt.
Proof.
  intros H1 H2. apply String_as_OT.cmp_lt.
  apply String_as_OT.cmp_lt in H1, H2. eapply String_as_OT.lt_trans; eassumption.
Qed.

Lemma default_compare_asym a b :
  num_lt (Fin 0) (default_compare a b) = true -> num_lt (Fin 0) (default_compare b a) = false.
Proof.
  unfold default_compare. rewrite (String.compare_antisym b a).
  destruct (String.compare a b); simpl; try discriminate; reflexivity.
Qed.

(** sorting distinct strings gives them in strictly increasing order *)
Lemma sort_strings_strict l :
  NoDup l ->
  Permutation (sort_strings l) l /\
  StronglySorted (fun a b => String.compare a b = Lt) (sort_strings l).
Proof.
  intro Hnd. split; [apply js_sort_perm|].
  assert (HS := js_sort_sorted default_compare default_compare_asym l).
  assert (Hnd' : NoDup (sort_strings l)).
  { apply (Permutation_NoDup (Permutation_sym (js_sort_perm _ l))), Hnd. }
  apply Sorted_StronglySorted; [intros a b c; apply string_lt_trans|].
  unfold sort_strings in *. revert HS Hnd'. generalize (js_sort default_compare l) as k.
  induction k as [|x t IH]; intros HS Hn; [constructor|].
  inversion HS as [|? ? St Hd]; inversion Hn as [|? ? Hx Ht]; subst.
  constructor; [apply IH; assumption|].
  destruct t as [|y u]; constructor. inversion Hd as [|? ? Hxy]; subst.
  unfold default_compare in Hxy. destruct (String.compare x y) eqn:E; try discriminate.
  - apply String.compare_eq_iff in E. subst. exfalso. apply Hx. left. reflexivity.
  - reflexivity.
Qed.

(** the month keys and week keys, once sorted, are the distinct keys of
    the dated rows in strictly increasing code-unit order *)
Theorem period_keys_sorted rows :
  Permutation (sort_strings (map fst (aggregateByMonth rows)))
    (uniq (flat_map (fun r => match parseDate (r_date r) with
                              | Some p => [month_key p] | None => [] end) rows)) /\
  StronglySorted (fun a b => String.compare a b = Lt) (sort_strings (map fst (aggregateByMonth rows))) /\
  Permutation (sort_strings (map fst (aggregateByWeek rows)))
    (uniq (flat_map (fun r => match parseDate (r_date r) with
                              | Some p => [pd_weekKey p] | None => [] end) rows)) /\
  StronglySorted (fun a b => String.compare a b = Lt) (sort_strings (map fst (aggregateByWeek rows))).
Proof.
  assert (HnM : NoDup (map fst (aggregateByMonth rows)))
    by (rewrite aggregateByMonth_fold; apply group_fold_keys_NoDup).
  assert (HnW : NoDup (map fst (aggregateByWeek rows)))
    by (rewrite aggregateByWeek_fold; apply group_fold_keys_NoDup).
  apply sort_strings_strict in HnM, HnW.
  rewrite <- aggregateByMonth_keys, <- aggregateByWeek_keys. tauto.
Qed.

(** rounding *)

(** data quality scan *)

Lemma falsy_parseDate v : falsy v = true -> parseDate v = None.
Proof.
  destruct v; try reflexivity. simpl. intro H. rewrite H. reflexivity.
Qed.

Lemma dq_scan_fold rows st :
  NoDup (seenKeys st) ->
  let st' := fold_left dq_scan rows st in
  missingDates st' = missingDates st + Z.of_nat (length (filter (fun r => negb (dated r)) rows)) /\
  NoDup (seenKeys st') /\
  duplicateCount st' + Z.of_nat (length (seenKeys st')) =
    duplicateCount st + Z.of_nat (length (seenKeys st)) + Z.of_nat (length rows).
Proof.
  revert st; induction rows as [|r t IH]; intros st Hnd; cbv zeta; simpl.
  - repeat split; [lia | exact Hnd | lia].
  - destruct (IH (dq_scan st r)) as [H1 [H2 H3]].
    { unfold dq_scan. cbv zeta. apply set_add_NoDup, Hnd. }
    cbv zeta in H1, H2, H3. split; [|split; [exact H2|]].
    + rewrite H1. unfold dq_scan. cbv zeta. cbn [missingDates].
      unfold dated. destruct (falsy (r_date r)) eqn:F.
      * rewrite (falsy_parseDate _ F). simpl. lia.
      * destruct (parseDate (r_date r)); simpl; lia.
    + rewrite H3. unfold dq_scan. cbv zeta. cbn [duplicateCount seenKeys].
      unfold set_add. destruct (existsb _ (seenKeys st)); rewrite ?length_app; simpl; lia.
Qed.

(** the data-quality scan counts as missing exactly the rows whose date
    does not parse, keeps each duplicate key once, and counts as
    duplicates the rows whose key was already seen *)
Theorem data_quality_counts rows :
  let st := fold_left dq_scan rows {| missingDates := 0; invalidQty := 0; invalidPrice := 0;
                                      seenKeys := []; duplicateCount := 0 |} in
  missingDates st = Z.of_nat (length (filter (fun r => negb (dated r)) rows)) /\
  NoDup (seenKeys st) /\
  duplicateCount st = Z.of_nat (length rows) - Z.of_nat (length (seenKeys st)).
Proof.
  destruct (dq_scan_fold rows {| missingDates := 0; invalidQty := 0; invalidPrice := 0;
                                seenKeys := []; duplicateCount := 0 |} (NoDup_nil _))
    as [H1 [H2 H3]].
  cbv zeta in *. cbn [missingDates seenKeys duplicateCount length] in *.
  split; [lia | split; [exact H2 | lia]].
Qed.

(** week keys *)

Lemma month_of_range y k : 1 <= month_of y k <= 12.
Proof. unfold month_of. simpl. repeat (destruct (_ <=? _)); lia. Qed.

Lemma make_day_shift d j :
  make_day (getFullYear d) (getMonth d) (getDate d + j) = d + j.
Proof.
  unfold make_day, getFullYear, getMonth, getDate. cbv zeta.
  set (y := year_from_day d). set (k := d - day_from_year y).
  pose proof (month_of_range y k) as Hm.
  rewrite Z.div_small by lia. rewrite Z.mod_small by lia. rewrite Z.add_0_r.
  replace (month_of y k - 1 + 1) with (month_of y k) by lia.
  unfold k. lia.
Qed.

(** the week key of day d is the date of day [d - getDay(d) + 1]: a
    Monday, from 5 days before d to the day after d (a Sunday); days of
    the same Sunday-to-Saturday week share their key *)
Theorem getISOWeekKey_week d :
  let m := d - getDay d + 1 in
  getISOWeekKey d = (Z_to_dec (getFullYear m) ++ "-" ++ pad2 (getMonth m + 1) ++ "-"
                     ++ pad2 (getDate m))%string /\
  getDay m = 1 /\ d - 5 <= m <= d + 1 /\
  (forall d', (d' + 6) / 7 = (d + 6) / 7 -> getISOWeekKey d' = getISOWeekKey d).
Proof.
  assert (Hk : forall e, getISOWeekKey e =
     let m := e - getDay e + 1 in
     (Z_to_dec (getFullYear m) ++ "-" ++ pad2 (getMonth m + 1) ++ "-" ++ pad2 (getDate m))%string).
  { intro e. unfold getISOWeekKey. cbv zeta.
    replace (getDate e - getDay e + 1) with (getDate e + (1 - getDay e)) by lia.
    rewrite make_day_shift. replace (e + (1 - getDay e)) with (e - getDay e + 1) by lia.
    reflexivity. }
  assert (Hm : forall e, e - getDay e + 1 = 7 * ((e + 6) / 7) - 5).
  { intro e. unfold getDay. pose proof (Z.div_mod (e + 6) 7 ltac:(lia)). lia. }
  cbv zeta. split; [apply Hk|]. split; [|split].
  - rewrite Hm. unfold getDay. replace (7 * ((d + 6) / 7) - 5 + 6) with (1 + ((d + 6) / 7) * 7) by lia.
    rewrite Z.mod_add by lia. reflexivity.
  - rewrite Hm. pose proof (Z.div_mod (d + 6) 7 ltac:(lia)).
    pose proof (Z.mod_pos_bound (d + 6) 7 ltac:(lia)). lia.
  - intros d' E. rewrite !Hk. cbv zeta. rewrite !Hm, E. reflexivity.
Qed.


(** seasonality *)

Lemma parse_checked_ranges y m d p :
  parse_checked y m d = Some p -> 1 <= pd_month p <= 12 /\ 0 <= pd_dayOfWeek p <= 6.
Proof.
  unfold parse_checked.
  destruct ((m <? 1) || (12 <? m) || (d <? 1) || (31 <? d)) eqn:G; [discriminate|].
  cbv zeta. destruct (negb _ || negb _); [discriminate|].
  intros [= <-]. cbn [pd_month pd_dayOfWeek].
  rewrite !orb_false_iff in G. destruct G as [[[G1 G2] _] _].
  apply Z.ltb_ge in G1, G2. split; [lia|]. unfold getDay.
  pose proof (Z.mod_pos_bound (new_Date y (m - 1) d + 6) 7 ltac:(lia)). lia.
Qed.

Lemma parseDate_ranges v p :
  parseDate v = Some p -> 1 <= pd_month p <= 12 /\ 0 <= pd_dayOfWeek p <= 6.
Proof.
  destruct v; try discriminate. unfold parseDate. cbv zeta.
  destruct (String.eqb s "") ; [discriminate|].
  destruct (match_ddmmyyyy _) as [[[g1 g2] g3]|]; [apply parse_checked_ranges|].
  destruct (match_yyyymmdd _) as [[[g1 g2] g3]|]; [apply parse_checked_ranges | discriminate].
Qed.

Lemma name_at_In names i :
  0 <= i < Z.of_nat (length names) -> In (name_at names (Some i)) names.
Proof.
  intro H. unfold name_at. destruct (i <? 0) eqn:E; [apply Z.ltb_lt in E; lia|].
  destruct (nth_error names (Z.to_nat i)) eqn:N.
  - eapply nth_error_In, N.
  - apply nth_error_None in N. lia.
Qed.

Lemma amap_set_keys_Forall {K V} (P : K -> Prop) eqk k (v : V) (m : amap K V) :
  P k -> Forall P (map fst m) -> Forall P (map fst (amap_set eqk k v m)).
Proof.
  intro Hk. induction m as [|[k' v'] t IH]; intro Hm; simpl.
  - constructor; [exact Hk | constructor].
  - inversion Hm; subst. destruct (eqk k k'); simpl; constructor; auto.
Qed.

Lemma js_sort_head_key {K V} (cmp : K * V -> K * V -> num) (m : amap K V) (P : K -> Prop) d x t :
  js_sort cmp m = (d, x) :: t -> Forall P (map fst m) -> P d.
Proof.
  intros S HF. rewrite Forall_forall in HF. apply (HF d).
  apply (in_map fst m (d, x)). apply (Permutation_in _ (js_sort_perm cmp m)).
  rewrite S. left. reflexivity.
Qed.

(** the seasonality step only appends a best-day finding and action naming
    a day of [DAY_NAMES] and a best-month finding naming a month of
    [MONTH_NAMES], never "undefined" *)
Theorem seasonality_names rows acc :
  exists ef ea,
    findings (seasonality_step rows acc) = findings acc ++ ef /\
    actions (seasonality_step rows acc) = actions acc ++ ea /\
    warnings (seasonality_step rows acc) = warnings acc /\
    Forall (fun f =>
      (exists n, In n DAY_NAMES /\ f = ("Your best day for sales is " ++ n ++ ".")%string) \/
      (exists n, In n MONTH_NAMES /\ f = ("Your best month for sales is " ++ n ++ ".")%string)) ef /\
    Forall (fun a =>
      exists n, In n DAY_NAMES /\ a = ("Schedule promotions or extra stock for " ++ n ++ "s.")%string) ea.
Proof.
  unfold seasonality_step.
  match goal with |- context [fold_left ?f rows (?a, ?b)] =>
    assert (Hinv : forall rs p, Forall (fun k => 0 <= k <= 6) (map fst (fst p)) ->
                                 Forall (fun k => 1 <= k <= 12) (map fst (snd p)) ->
                   Forall (fun k => 0 <= k <= 6) (map fst (fst (fold_left f rs p))) /\
                   Forall (fun k => 1 <= k <= 12) (map fst (snd (fold_left f rs p))));
    [ | destruct (fold_left f rows (a, b)) as [bd bm] eqn:E;
        specialize (Hinv rows (a, b) (Forall_nil _) (Forall_nil _)); rewrite E in Hinv ]
  end.
  { intros rs; induction rs as [|r t IH]; intros [bd bm] H1 H2; [split; assumption|].
    cbn [fold_left]. apply IH; destruct (parseDate (r_date r)) as [pd|] eqn:P;
      cbn [fst snd]; try assumption;
      apply parseDate_ranges in P; apply amap_set_keys_Forall; tauto. }
  destruct Hinv as [Hd Hm]. cbn [fst snd] in Hd, Hm. cbn beta iota zeta.
  assert (Hday : forall a, exists ef ea,
    findings (if (3 <=? length bd)%nat then
                match js_sort (fun a b => num_sub (snd b) (snd a)) bd with
                | (d, _) :: _ =>
                    push_action ("Schedule promotions or extra stock for " ++ name_at DAY_NAMES (Some d) ++ "s.")
                      (push_finding ("Your best day for sales is " ++ name_at DAY_NAMES (Some d) ++ ".") a)
                | [] => a end else a) = findings a ++ ef /\
    actions (if (3 <=? length bd)%nat then
                match js_sort (fun a b => num_sub (snd b) (snd a)) bd with
                | (d, _) :: _ =>
                    push_action ("Schedule promotions or extra stock for " ++ name_at DAY_NAMES (Some d) ++ "s.")
                      (push_finding ("Your best day for sales is " ++ name_at DAY_NAMES (Some d) ++ ".") a)
                | [] => a end else a) = actions a ++ ea /\
    warnings (if (3 <=? length bd)%nat then
                match js_sort (fun a b => num_sub (snd b) (snd a)) bd with
                | (d, _) :: _ =>
                    push_action ("Schedule promotions or extra stock for " ++ name_at DAY_NAMES (Some d) ++ "s.")
                      (push_finding ("Your best day for sales is " ++ name_at DAY_NAMES (Some d) ++ ".") a)
                | [] => a end else a) = warnings a /\
    Forall (fun f => exists n, In n DAY_NAMES /\ f = ("Your best day for sales is " ++ n ++ ".")%string) ef /\
    Forall (fun a =>
      exists n, In n DAY_NAMES /\ a = ("Schedule promotions or extra stock for " ++ n ++ "s.")%string) ea).
  { intro a. destruct (3 <=? length bd)%nat;
      [destruct (js_sort _ bd) as [|[d x] t] eqn:S|].
    1, 3: exists [], []; rewrite !app_nil_r; repeat split; constructor.
    pose proof (js_sort_head_key _ _ _ d x t S Hd) as Hdr. cbv beta in Hdr.
    assert (Hn : In (name_at DAY_NAMES (Some d)) DAY_NAMES).
    { apply name_at_In. replace (Z.of_nat (length DAY_NAMES)) with 7 by reflexivity. lia. }
    exists [("Your best day for sales is " ++ name_at DAY_NAMES (Some d) ++ ".")%string],
           [("Schedule promotions or extra stock for " ++ name_at DAY_NAMES (Some d) ++ "s.")%string].
    cbn [findings actions warnings push_action push_finding].
    repeat split; repeat constructor; eauto. }
  set (acc1 := if (3 <=? length bd)%nat then _ else acc).
  destruct (Hday acc) as [ef1 [ea1 [F1 [A1 [W1 [HF1 HA1]]]]]]. fold acc1 in F1, A1, W1.
  destruct (3 <=? length bm)%nat; [destruct (js_sort _ bm) as [|[mo y] u] eqn:S|].
  1, 3: exists ef1, ea1; repeat split; try assumption;
        refine (Forall_impl _ _ HF1); intros f Hf; left; exact Hf.
  pose proof (name_at_In MONTH_NAMES (mo - 1)) as Hn.
  assert (Hmo : 1 <= mo <= 12) by exact (js_sort_head_key _ _ (fun k => 1 <= k <= 12) mo y u S Hm).
  specialize (Hn ltac:(replace (Z.of_nat (length MONTH_NAMES)) with 12 by reflexivity; lia)).
  exists (ef1 ++ [("Your best month for sales is " ++ name_at MONTH_NAMES (Some (mo - 1)) ++ ".")%string]), ea1.
  cbn [findings actions warnings push_finding]. rewrite F1, <- app_assoc.
  repeat split; try assumption.
  apply Forall_app. split.
  - refine (Forall_impl _ _ HF1). intros f Hf. left. exact Hf.
  - constructor; [right; eauto | constructor].
Qed.

(** the card *)

Lemma generateInsights_findings_not_nil rows :
  (MIN_ROWS_FOR_INSIGHTS <= length rows)%nat -> findings (generateInsights (InArray rows)) <> [].
Proof.
  intro H. unfold generateInsights.
  replace (length rows <? MIN_ROWS_FOR_INSIGHTS)%nat with false
    by (symmetry; apply Nat.ltb_ge; exact H).
  assert (Hne : rows <> []) by (intro E; subst; unfold MIN_ROWS_FOR_INSIGHTS in H; simpl in H; lia).
  pose proof (collect_findings_not_nil rows Hne) as Hf.
  unfold finalize. cbn [findings]. rewrite uniq_dedup_spec.
  destruct (findings (collect rows)) as [|x t]; [contradiction|].
  unfold dedup_spec. simpl. discriminate.
Qed.

(** once its effect has run, the card shows the "Add more sales" note
    exactly when [rows] is null or has fewer than 3 rows, and otherwise
    lists the findings, which are never empty *)
Theorem card_after_effect_body rows :
  (card_after_effect rows = AddMoreSales <->
     match rows with None => True | Some l => (length l < MIN_ROWS)%nat end) /\
  (forall l, rows = Some l -> (MIN_ROWS <= length l)%nat ->
     exists na wb, card_after_effect rows =
       InsightLists (Bullets (findings (generateInsights (InArray l)))) na wb /\
       findings (generateInsights (InArray l)) <> []).
Proof.
  split.
  - unfold card_after_effect, card_body. destruct rows as [l|]; cbn [negb andb].
    + destruct (length l <? MIN_ROWS)%nat eqn:E.
      * apply Nat.ltb_lt in E. tauto.
      * apply Nat.ltb_ge in E. split; [discriminate | lia].
    + tauto.
  - intros l -> Hl. unfold card_after_effect, card_body. cbn [negb andb card_input].
    replace (length l <? MIN_ROWS)%nat with false by (symmetry; apply Nat.ltb_ge; exact Hl).
    assert (Hf := generateInsights_findings_not_nil l Hl).
    destruct (findings (generateInsights (InArray l))) as [|x t] eqn:E; [contradiction|].
    eexists _, _. split; [reflexivity | discriminate].
Qed.

(** top category *)

Lemma groupByCategory_finite rows :
  Forall (fun c => is_finite (ca_revenue c) = true /\ is_finite (ca_quantity c) = true)
    (groupByCategory rows).
Proof.
  rewrite groupByCategory_fold. apply Forall_map_snd.
  apply (group_fold_Forall _ _ (fun _ c => is_finite (ca_revenue c) = true /\
                                          is_finite (ca_quantity c) = true)); [|constructor].
  intros k o r _ Ho. unfold category_step.
  assert (Hc : is_finite (ca_revenue (match o with Some c => c | None =>
             {| ca_category := category_name r; ca_revenue := Fin 0; ca_quantity := Fin 0 |} end)) = true /\
             is_finite (ca_quantity (match o with Some c => c | None =>
             {| ca_category := category_name r; ca_revenue := Fin 0; ca_quantity := Fin 0 |} end)) = true).
  { destruct o as [w|]; [apply (Ho w eq_refl) | split; reflexivity]. }
  destruct Hc as [H1 H2]. simpl.
  split; apply is_finite_add; auto using getRevenue_finite, getQuantity_finite.
Qed.

(** for non-empty rows, the top category reported is one with the largest
    revenue *)
Theorem category_top_is_max rows acc :
  rows <> [] ->
  exists top,
    In top (groupByCategory rows) /\
    (forall c, In c (groupByCategory rows) -> qv (ca_revenue c) <= qv (ca_revenue top))%Q /\
    findings (category_top_step (groupByCategory rows) acc) =
      findings acc ++ [(ca_category top ++ " is your top category ($"
                        ++ formatCurrency (ca_revenue top) ++ " revenue).")%string] /\
    actions (category_top_step (groupByCategory rows) acc) =
      actions acc ++ [("Focus on category " ++ dq ++ ca_category top ++ dq
                       ++ ", it drives the most revenue.")%string].
Proof.
  intro Hne.
  assert (HS := by_key_sorted ca_revenue (groupByCategory rows)).
  specialize (HS ltac:(refine (Forall_impl _ _ (groupByCategory_finite rows)); intros c [H1 _]; exact H1)).
  pose proof (js_sort_perm (fun a b => num_sub (ca_revenue b) (ca_revenue a)) (groupByCategory rows)) as HP.
  unfold category_top_step.
  destruct (js_sort _ (groupByCategory rows)) as [|top rest] eqn:S.
  - exfalso. apply Permutation_nil in HP.
    destruct rows as [|r t]; [contradiction|].
    assert (Hin : In (category_name r) (map ca_category (groupByCategory (r :: t)))).
    { rewrite groupByCategory_keys, uniq_In. left. reflexivity. }
    rewrite HP in Hin. contradiction.
  - exists top. split; [|split; [|split; reflexivity]].
    + apply (Permutation_in _ HP). left. reflexivity.
    + intros c Hc. apply (Permutation_in _ (Permutation_sym HP)) in Hc.
      apply StronglySorted_inv in HS as [_ HF].
      destruct Hc as [<-|Hc]; [apply Qle_refl|].
      rewrite Forall_forall in HF. exact (HF c Hc).
Qed.

End Extras.

(** witness for [getISOWeekKey_week]: Wednesday 12 and Saturday 15 March
    2025 share their week key *)
Lemma getISOWeekKey_week_witness :
  getISOWeekKey (make_day 2025 2 15) = getISOWeekKey (make_day 2025 2 12).
Proof.
  apply (proj2 (proj2 (proj2 (getISOWeekKey_week (make_day 2025 2 12)))) (make_day 2025 2 15)).
  vm_compute. reflexivity.
Defined.

(** witness for [category_top_is_max] *)
Lemma category_top_is_max_witness :
  exists top,
    In top (groupByCategory (host := example_host) rows_one_month) /\
    (forall c, In c (groupByCategory (host := example_host) rows_one_month) ->
       qv (ca_revenue c) <= qv (ca_revenue top))%Q /\
    findings (category_top_step (host := example_host) (groupByCategory (host := example_host) rows_one_month) acc0) =
      findings acc0 ++ [(ca_category top ++ " is your top category ($"
                         ++ @formatCurrency example_host (ca_revenue top) ++ " revenue).")%string] /\
    actions (category_top_step (host := example_host) (groupByCategory (host := example_host) rows_one_month) acc0) =
      actions acc0 ++ [("Focus on category " ++ dq ++ ca_category top ++ dq
                        ++ ", it drives the most revenue.")%string].
Proof. apply (category_top_is_max (host := example_host) rows_one_month acc0). simpl. discriminate. Defined.

(** witness for [card_after_effect_body] *)
Lemma card_after_effect_body_witness :
  exists na wb, card_after_effect (host := example_host) (Some rows_one_month) =
    InsightLists (Bullets (findings (generateInsights (host := example_host) (InArray rows_one_month))))
      na wb /\
    findings (generateInsights (host := example_host) (InArray rows_one_month)) <> [].
Proof.
  apply (proj2 (card_after_effect_body (host := example_host) (Some rows_one_month)) rows_one_month);
    [reflexivity | unfold MIN_ROWS; simpl; lia].
Defined.
